(** * Contar extractor: hierarchy resolution and stream-format normalisation

    A shallow embedding of [youtube_dl/extractor/contar.py].

    Python values that come out of the JSON decoder are modelled by the
    type [json]; a Python [dict] is an association list in insertion order
    (the order [values()] and iteration follow), with unique keys kept by
    [dict_set].  Numbers are integers and strings are byte strings: the
    catalogue's identifiers, names and language tags are ASCII.

    Exceptions are values of [pyerr]; code that can raise returns a
    [pyres].  Methods that read or write the extractor object, the headers
    mappings or the network run in the monad [M], which threads a [state]
    and keeps it when an exception is raised, as Python does. *)

From Stdlib Require Import ZArith Ascii String List Lia.
From stdpp Require Import base option list strings gmap.

Local Open Scope Z_scope.
Local Open Scope string_scope.
Local Open Scope list_scope.

(** ** Values *)

#[local] Set Warnings "-register-all".

Inductive json : Type :=
| JNull
| JBool (b : bool)
| JNum (n : Z)
| JStr (s : string)
| JArr (l : list json)
| JObj (d : list (string * json)).

Abbreviation dict := (list (string * json)).

#[global] Instance json_inhabited : Inhabited json := populate JNull.

(** [d.get(k)] at the level of the association list. *)
Fixpoint dict_get (d : dict) (k : string) : option json :=
  match d with
  | [] => None
  | (k', v) :: d' => if String.eqb k' k then Some v else dict_get d' k
  end.

(** [d[k] = v]: an existing key keeps its position, a new one goes last. *)
Fixpoint dict_set (d : dict) (k : string) (v : json) : dict :=
  match d with
  | [] => [(k, v)]
  | (k', v') :: d' =>
      if String.eqb k' k then (k', v) :: d' else (k', v') :: dict_set d' k v
  end.

Definition dict_keys (d : dict) : list string := map fst d.
Definition dict_values (d : dict) : list json := map snd d.

(** Python truth value of a decoded value ([if x:], [x or y]). *)
Definition truthy (v : json) : bool :=
  match v with
  | JNull => false
  | JBool b => b
  | JNum n => negb (Z.eqb n 0)
  | JStr s => negb (String.eqb s "")
  | JArr l => match l with [] => false | _ => true end
  | JObj d => match d with [] => false | _ => true end
  end.

(** Python [==]: [True] and [False] compare as 1 and 0, lists
    elementwise, dicts by key regardless of order. *)
Fixpoint py_eq (a b : json) {struct a} : bool :=
  match a, b with
  | JNull, JNull => true
  | JBool x, JBool y => Bool.eqb x y
  | JBool x, JNum n => Z.eqb (if x then 1 else 0) n
  | JNum n, JBool y => Z.eqb n (if y then 1 else 0)
  | JNum n, JNum m => Z.eqb n m
  | JStr s, JStr t => String.eqb s t
  | JArr l, JArr m =>
      (fix go (l m : list json) {struct l} : bool :=
         match l, m with
         | [], [] => true
         | x :: l', y :: m' => py_eq x y && go l' m'
         | _, _ => false
         end) l m
  | JObj d, JObj e =>
      Nat.eqb (length d) (length e)
      && forallb (fun kv : string * json =>
                    let (k, v) := kv in
                    match dict_get e k with
                    | Some w => py_eq v w
                    | None => false
                    end) d
  | _, _ => false
  end.

(** ** Exceptions *)

Inductive pyerr : Type :=
| KeyError (key : string)
| AttributeError (attr : string)
| TypeError
| ExtractorError (msg : string) (expected : bool)
| AuthRequiredError.

Inductive pyres (A : Type) : Type :=
| Ok (a : A)
| Raise (e : pyerr).
Arguments Ok {A} a.
Arguments Raise {A} e.

Definition bindR {A B} (c : pyres A) (k : A -> pyres B) : pyres B :=
  match c with
  | Ok a => k a
  | Raise e => Raise e
  end.

Declare Scope pyres_scope.
Delimit Scope pyres_scope with pyres.
Notation "x <~ c1 ; c2" := (bindR c1 (fun x => c2))
  (at level 20, c1 at level 100, c2 at level 200, only parsing) : pyres_scope.

(** A [for] loop whose body may raise, with an accumulator. *)
Fixpoint foldR {A B} (f : B -> A -> pyres B) (l : list A) (acc : B) : pyres B :=
  match l with
  | [] => Ok acc
  | x :: l' => bindR (f acc x) (foldR f l')
  end.

(** ** Python primitives on decoded values *)

(** [o.get(k, dflt)]: only a dict has the method. *)
Definition py_get (o : json) (k : string) (dflt : json) : pyres json :=
  match o with
  | JObj d => Ok (default dflt (dict_get d k))
  | _ => Raise (AttributeError "get")
  end.

(** [o[k]] with a string key: [KeyError] on a dict without the key,
    [TypeError] on anything that is not a dict. *)
Definition py_getitem (o : json) (k : string) : pyres json :=
  match o with
  | JObj d =>
      match dict_get d k with
      | Some v => Ok v
      | None => Raise (KeyError k)
      end
  | _ => Raise TypeError
  end.

Fixpoint chars (s : string) : list json :=
  match s with
  | EmptyString => []
  | String c s' => JStr (String c EmptyString) :: chars s'
  end.

(** [for x in o]: a list yields its items, a dict its keys, a string its
    characters; nothing else is iterable. *)
Definition py_iter (o : json) : pyres (list json) :=
  match o with
  | JArr l => Ok l
  | JObj d => Ok (map JStr (dict_keys d))
  | JStr s => Ok (chars s)
  | _ => Raise TypeError
  end.

Definition ascii_lower (c : ascii) : ascii :=
  let n := N_of_ascii c in
  if ((65 <=? n) && (n <=? 90))%N then ascii_of_N (n + 32) else c.

Fixpoint str_lower (s : string) : string :=
  match s with
  | EmptyString => EmptyString
  | String c s' => String (ascii_lower c) (str_lower s')
  end.

(** [o.lower()]. *)
Definition py_lower (o : json) : pyres string :=
  match o with
  | JStr s => Ok (str_lower s)
  | _ => Raise (AttributeError "lower")
  end.

(** [sep.join(items)]: every item has to be a string. *)
Fixpoint py_join (sep : string) (items : list json) : pyres string :=
  match items with
  | [] => Ok ""
  | JStr s :: rest =>
      match rest with
      | [] => Ok s
      | _ => bindR (py_join sep rest) (fun t => Ok (s +:+ sep +:+ t))
      end
  | _ :: _ => Raise TypeError
  end.

(** ['literal' + o]. *)
Definition py_concat (prefix : string) (o : json) : pyres string :=
  match o with
  | JStr s => Ok (prefix +:+ s)
  | _ => Raise TypeError
  end.

(** A [for] loop that leaves with [return] at the first item for which the
    body produces a value; [None] when the loop runs to its end. *)
Fixpoint for_first {A B} (f : A -> pyres (option B)) (l : list A)
  : pyres (option B) :=
  match l with
  | [] => Ok None
  | x :: l' =>
      bindR (f x) (fun r =>
        match r with
        | Some b => Ok (Some b)
        | None => for_first f l'
        end)
  end.

(** ** The extractor's state *)

(** One call of [_download_json]: the URL, the id shown in progress
    messages, the contents of the headers mapping at the time of the call,
    the progress note and the POST body. *)
Record request : Type := {
  req_url : string;
  req_video_id : json;
  req_headers : dict;
  req_note : option string;
  req_data : option string
}.

(** Headers mappings are Python objects that the caller and [_call_api]
    share, so they live in a store and are passed by location.  The two
    mappings that serve as default arguments ([headers={}] of [_call_api]
    and of [_get_serie_info]) are created once, when the class body is
    evaluated; they occupy the first two cells of the store. *)
Abbreviation loc := nat.

Definition _call_api_headers : loc := 0%nat.
Definition _get_serie_info_headers : loc := 1%nat.

(** [_auth_token] is [None] until [_real_initialize] assigns the attribute;
    [log] lists the calls of [_download_json] made so far, oldest first. *)
Record state : Type := {
  _auth_token : option json;
  heap : list dict;
  log : list request
}.

Definition initial_state : state :=
  {| _auth_token := None; heap := [ []; [] ]; log := [] |}.

Definition M (A : Type) : Type := state -> pyres A * state.

Definition retM {A} (a : A) : M A := fun s => (Ok a, s).

Definition raiseM {A} (e : pyerr) : M A := fun s => (Raise e, s).

Definition bindM {A B} (c : M A) (k : A -> M B) : M B :=
  fun s =>
    match c s with
    | (Ok a, s') => k a s'
    | (Raise e, s') => (Raise e, s')
    end.

Definition liftR {A} (c : pyres A) : M A := fun s => (c, s).

Declare Scope M_scope.
Delimit Scope M_scope with M.
Notation "x <- c1 ; c2" := (bindM c1 (fun x => c2))
  (at level 20, c1 at level 100, c2 at level 200, only parsing) : M_scope.

Fixpoint foldM {A B} (f : B -> A -> M B) (l : list A) (acc : B) : M B :=
  match l with
  | [] => retM acc
  | x :: l' => bindM (f acc x) (foldM f l')
  end.

(** [self._auth_token], read. *)
Definition get_auth_token : M json :=
  fun s =>
    match _auth_token s with
    | Some t => (Ok t, s)
    | None => (Raise (AttributeError "_auth_token"), s)
    end.

(** [self._auth_token = t]. *)
Definition set_auth_token (t : json) : M unit :=
  fun s => (Ok tt, {| _auth_token := Some t; heap := heap s; log := log s |}).

(** A dict display [{...}] evaluated: a new object. *)
Definition new_dict (d : dict) : M loc :=
  fun s => (Ok (length (heap s)),
            {| _auth_token := _auth_token s;
               heap := heap s ++ [d];
               log := log s |}).

(** The present contents of the mapping at a location.  Locations come
    from [new_dict] or are one of the two defaults, so the cell is there. *)
Definition read_dict (h : loc) : M dict :=
  fun s => (Ok (default [] (heap s !! h)), s).

(** [h[k] = v], in place. *)
Definition setitem (h : loc) (k : string) (v : json) : M unit :=
  fun s => (Ok tt,
            {| _auth_token := _auth_token s;
               heap := alter (fun d => dict_set d k v) h (heap s);
               log := log s |}).

(** ** The base class and the collaborators outside this file *)

(** Modelled from the spec: the members of [InfoExtractor] (common.py) and
    of [utils] that contar.py calls; their code is not in this file.  The
    catalogue answers each request with a decoded body or a failure; the two
    manifest collaborators are called with [fatal=False] and hand back the
    formats they could parse, none when the manifest cannot be parsed;
    [int_or_none] coerces to an integer or null and does not raise;
    [format_leb] is the collaborator's format-comparison policy and
    [py_str] the text Python's percent-s gives for a value that is not a
    string. *)
Class InfoExtractor : Type := {
  IE_NAME : string;
  _download_json : request -> pyres json;
  _get_login_info : option string * option string;
  _match_id : string -> string;
  _extract_m3u8_formats : json -> json -> list json;
  _extract_mpd_formats : json -> json -> list json;
  format_leb : json -> json -> bool;
  int_or_none : json -> option Z;
  urlencode_postdata : list (string * option string) -> string;
  py_str : json -> string
}.

Definition _API_BASE : string := "https://api.cont.ar/api/v2/".

Section ContarBaseIE.
Context `{IE : InfoExtractor}.

(** The right operand of ['%s said: %s' % (IE_NAME, error)]. *)
Definition percent_s (v : json) : string :=
  match v with
  | JStr s => s
  | _ => py_str v
  end.

Definition _handle_errors (result : json) : pyres unit :=
  (e <~ py_get result "error" (JObj []) ;
   error <~ py_get e "message" JNull ;
   if truthy error then
     text <~ match error with
             | JObj d => py_join ", " (dict_values d)
             | _ => Ok (percent_s error)
             end ;
     Raise (ExtractorError (IE_NAME +:+ " said: " +:+ text) true)
   else Ok tt)%pyres.

Definition _get_season_number (serie_info video_id : json) : pyres json :=
  (s <~ py_getitem serie_info "seasons" ;
   d <~ py_get s "data" (JArr []) ;
   seasons <~ py_iter d ;
   r <~ for_first (fun season =>
          season_number <~ py_get season "name" JNull ;
          v <~ py_getitem season "videos" ;
          vd <~ py_get v "data" (JArr []) ;
          episodes <~ py_iter vd ;
          for_first (fun episode =>
            id <~ py_get episode "id" JNull ;
            Ok (if py_eq id video_id then Some season_number else None))
            episodes) seasons ;
   Ok (default JNull r))%pyres.

(** One subtitle track, [[{'url': url, 'ext': 'srt'}]]. *)
Definition srt_track (url : json) : json :=
  JArr [JObj [("url", url); ("ext", JStr "srt")]].

Definition _get_subtitles (subtitles video_id : json)
  : pyres (gmap string json) :=
  (subs_list <~ py_iter subtitles ;
   foldR (fun (subs : gmap string json) sub =>
            l <~ py_get sub "lang" JNull ;
            lang <~ py_lower l ;
            url <~ py_get sub "url" JNull ;
            Ok (<[lang := srt_track url]> subs))
         subs_list ∅)%pyres.

(** Modelled from the spec: [_sort_formats] (common.py) is not in this
    file.  The collected formats are put in the collaborator's total order,
    ascending, by a stable sort; an empty list stays empty and nothing is
    raised. *)
Fixpoint insert_format (f : json) (sorted : list json) : list json :=
  match sorted with
  | [] => [f]
  | g :: rest =>
      if format_leb f g then f :: g :: rest else g :: insert_format f rest
  end.

Definition _sort_formats (formats : list json) : list json :=
  foldr insert_format [] formats.

Definition _get_formats (videos video_id : json) : pyres (list json) :=
  (streams <~ py_iter videos ;
   formats <~ foldR (fun formats stream =>
       stream_url <~ py_get stream "url" JNull ;
       type <~ py_get stream "type" JNull ;
       if py_eq type (JStr "HLS") then
         Ok (formats ++ _extract_m3u8_formats stream_url video_id)
       else if py_eq type (JStr "DASH") then
         Ok (formats ++ _extract_mpd_formats stream_url video_id)
       else Ok formats) streams [] ;
   Ok (_sort_formats formats))%pyres.

End ContarBaseIE.

(** ** Methods that use the network and the extractor object *)

(** What [_get_video_info] returns: the dict literal [info], one field per
    key. *)
Record video_info : Type := {
  vi_id : json;
  vi_title : json;
  vi_description : json;
  vi_series : json;
  vi_episode : json;
  vi_episode_number : option Z;
  vi_season_number : option Z;
  vi_season_id : json;
  vi_episode_id : json;
  vi_duration : option Z;
  vi_thumbnail : json;
  vi_release_year : option Z;
  vi_formats : list json;
  vi_subtitles : gmap string json
}.

(** Modelled from the spec: [playlist_result] (common.py) is not in this
    file.  A Playlist holds the entries in the order given, its id, title
    and description. *)
Record playlist : Type := {
  pl_entries : list video_info;
  pl_id : json;
  pl_title : json;
  pl_description : json
}.

Definition playlist_result (entries : list video_info)
    (playlist_id playlist_title playlist_description : json) : playlist :=
  {| pl_entries := entries;
     pl_id := playlist_id;
     pl_title := playlist_title;
     pl_description := playlist_description |}.

Section ContarBaseIE_network.
Context `{IE : InfoExtractor}.
Local Open Scope M_scope.

(** A call of [_download_json]: the answer comes from the catalogue and
    the call is recorded. *)
Definition download (r : request) : M json :=
  fun s => (_download_json r,
            {| _auth_token := _auth_token s;
               heap := heap s;
               log := log s ++ [r] |}).

(** Modelled from the spec: [raise_login_required] (common.py) is not in
    this file; it raises the login-required error. *)
Definition raise_login_required {A} : M A := raiseM AuthRequiredError.

Definition _call_api (path : string) (video_id : json)
    (headers : option loc) (note : option string) : M json :=
  let headers := default _call_api_headers headers in
  let note := default "Downloading JSON metadata" note in
  tok <- get_auth_token ;
  _ <- (if truthy tok then
          bearer <- liftR (py_concat "Bearer " tok) ;
          setitem headers "Authorization" (JStr bearer)
        else retM tt) ;
  sent <- read_dict headers ;
  result <- download {| req_url := _API_BASE +:+ path;
                        req_video_id := video_id;
                        req_headers := sent;
                        req_note := Some note;
                        req_data := None |} ;
  _ <- liftR (_handle_errors result) ;
  liftR (py_getitem result "data").

Definition _real_initialize : M unit :=
  let (email, password) := _get_login_info in
  _ <- match email with
       | None => raise_login_required
       | Some _ => retM tt
       end ;
  result <- download {| req_url := _API_BASE +:+ "authenticate";
                        req_video_id := JNull;
                        req_headers := [];
                        req_note := None;
                        req_data := Some (urlencode_postdata
                                            [("email", email);
                                             ("password", password)]) |} ;
  _ <- liftR (_handle_errors result) ;
  token <- liftR (py_getitem result "token") ;
  set_auth_token token.

Definition _get_serie_info (serie_id : json) (headers : option loc) : M json :=
  let headers := default _get_serie_info_headers headers in
  path <- liftR (py_concat "serie/" serie_id) ;
  _call_api path serie_id (Some headers)
            (Some "Downloading Serie JSON metadata").

(** [base] is only read here, so it is passed as the mapping's contents. *)
Definition _get_video_info (video video_id : json) (base : dict)
  : M video_info :=
  streams <- liftR (py_get video "streams" (JArr [])) ;
  id0 <- liftR (py_get video "id" JNull) ;
  formats <- liftR (_get_formats streams id0) ;
  subs <- liftR (py_getitem video "subtitles") ;
  subs_data <- liftR (py_get subs "data" (JArr [])) ;
  id1 <- liftR (py_get video "id" JNull) ;
  subtitles <- liftR (_get_subtitles subs_data id1) ;
  serie_info <- (let known := default JNull (dict_get base "serie_info") in
                 if truthy known then retM known
                 else
                   serie <- liftR (py_get video "serie" JNull) ;
                   _get_serie_info serie None) ;
  season_number <- (let known :=
                      default JNull (dict_get base "season_number") in
                    if truthy known then retM known
                    else
                      id2 <- liftR (py_get video "id" JNull) ;
                      liftR (_get_season_number serie_info id2)) ;
  episode_number <- liftR (py_get video "episode" JNull) ;
  id <- liftR (py_get video "id" JNull) ;
  title <- liftR (py_get video "name" JNull) ;
  description <- liftR (py_get video "synopsis" JNull) ;
  series <- liftR (py_get video "serie_name" JNull) ;
  episode <- liftR (py_get video "name" JNull) ;
  season_id <- liftR (py_get video "serie" JNull) ;
  episode_id <- liftR (py_get video "id" JNull) ;
  length <- liftR (py_get video "length" JNull) ;
  thumbnail <- liftR (py_get video "posterImage" JNull) ;
  year <- liftR (py_get serie_info "year" JNull) ;
  retM {| vi_id := id;
          vi_title := title;
          vi_description := description;
          vi_series := series;
          vi_episode := episode;
          vi_episode_number := int_or_none episode_number;
          vi_season_number := int_or_none season_number;
          vi_season_id := season_id;
          vi_episode_id := episode_id;
          vi_duration := int_or_none length;
          vi_thumbnail := thumbnail;
          vi_release_year := int_or_none year;
          vi_formats := formats;
          vi_subtitles := subtitles |}.

End ContarBaseIE_network.

Module ContarIE.
Section Extract.
Context `{IE : InfoExtractor}.
Local Open Scope M_scope.

Definition _real_extract (url : string) : M video_info :=
  let video_id := _match_id url in
  headers <- new_dict [("Referer", JStr url)] ;
  video <- _call_api ("videos/" +:+ video_id) (JStr video_id)
                     (Some headers) None ;
  _get_video_info video (JStr video_id) [].

End Extract.
End ContarIE.

Module ContarSerieIE.
Section Extract.
Context `{IE : InfoExtractor}.
Local Open Scope M_scope.

(** The inner loop: one [_get_video_info] per episode, appended. *)
Definition episodes_loop (serie_id : json) (base : dict)
    (episodes : list json) (entries : list video_info)
  : M (list video_info) :=
  foldM (fun entries episode =>
           info <- _get_video_info episode serie_id base ;
           retM (entries ++ [info]))
        episodes entries.

(** The outer loop; [base] and [entries] are the loop-carried variables. *)
Definition seasons_loop (serie_id : json) (seasons : list json)
    (base : dict) (entries : list video_info)
  : M (dict * list video_info) :=
  foldM (fun (acc : dict * list video_info) season =>
           let (base, entries) := acc in
           name <- liftR (py_get season "name" JNull) ;
           let base := dict_set base "season_number" name in
           v <- liftR (py_getitem season "videos") ;
           vd <- liftR (py_get v "data" (JArr [])) ;
           episodes <- liftR (py_iter vd) ;
           entries <- episodes_loop serie_id base episodes entries ;
           retM (base, entries))
        seasons (base, entries).

Definition _real_extract (url : string) : M playlist :=
  let serie_id := _match_id url in
  headers <- new_dict [("Referer", JStr url)] ;
  serie_info <- _get_serie_info (JStr serie_id) (Some headers) ;
  let base := dict_set [] "serie_info" serie_info in
  s <- liftR (py_getitem serie_info "seasons") ;
  d <- liftR (py_get s "data" (JArr [])) ;
  seasons <- liftR (py_iter d) ;
  r <- seasons_loop (JStr serie_id) seasons base [] ;
  title <- liftR (py_get serie_info "name" JNull) ;
  description <- liftR (py_get serie_info "story_large" JNull) ;
  retM (playlist_result (snd r) (JStr serie_id) title description).

End Extract.
End ContarSerieIE.

(** ** Shapes of the catalogue's answers *)

(** The catalogue wraps every list as [{'data': [...]}]; a wrapper without
    the key stands for the empty list. *)
Definition listing (o : json) : option (list json) :=
  match o with
  | JObj d =>
      match dict_get d "data" with
      | None => Some []
      | Some (JArr l) => Some l
      | Some _ => None
      end
  | _ => None
  end.

Definition is_obj (o : json) : bool :=
  match o with
  | JObj _ => true
  | _ => false
  end.

(** A field of an object, null when absent. *)
Definition field (o : json) (k : string) : json :=
  match o with
  | JObj d => default JNull (dict_get d k)
  | _ => JNull
  end.

Definition season_episodes (season : json) : option (list json) :=
  match season with
  | JObj d => dict_get d "videos" ≫= listing
  | _ => None
  end.

Definition serie_seasons (serie_info : json) : option (list json) :=
  match serie_info with
  | JObj d => dict_get d "seasons" ≫= listing
  | _ => None
  end.

(** A SeasonInfo: an object whose [videos] is a listing of objects. *)
Definition is_season (season : json) : bool :=
  match season_episodes season with
  | Some episodes => forallb is_obj episodes
  | None => false
  end.

(** A SeriesInfo: an object whose [seasons] is a listing of SeasonInfo. *)
Definition is_serie (serie_info : json) : bool :=
  match serie_seasons serie_info with
  | Some seasons => forallb is_season seasons
  | None => false
  end.

(** The season number as the specification words it: the name of the first
    season, in the returned order, whose episode list contains an episode
    with the id; null when there is none. *)
Definition contains_episode (video_id season : json) : bool :=
  existsb (fun episode => py_eq (field episode "id") video_id)
          (default [] (season_episodes season)).

Definition season_of (serie_info video_id : json) : json :=
  match List.find (contains_episode video_id)
                  (default [] (serie_seasons serie_info)) with
  | Some season => field season "name"
  | None => JNull
  end.

(** A SubtitleDescriptor: an object whose [lang] is a string. *)
Definition is_subtitle (sub : json) : bool :=
  match sub with
  | JObj d =>
      match dict_get d "lang" with
      | Some (JStr _) => true
      | _ => false
      end
  | _ => false
  end.

(** The map key of a descriptor: its [lang], lowercased. *)
Definition sub_key (sub : json) : string :=
  match field sub "lang" with
  | JStr l => str_lower l
  | _ => ""
  end.

(** The subtitle map as the specification words it: under each key the
    track of the last descriptor with that lowercased [lang]. *)
Definition last_write (subs : list json) (k : string) : option json :=
  (fun sub => srt_track (field sub "url"))
    <$> last (filter (fun sub => sub_key sub = k) subs).

(** A stream descriptor whose [type] is neither HLS nor DASH. *)
Definition unsupported (stream : json) : bool :=
  is_obj stream
  && negb (py_eq (field stream "type") (JStr "HLS"))
  && negb (py_eq (field stream "type") (JStr "DASH")).

(** An EpisodeRaw as [_get_video_info] reads it: an object whose
    [subtitles] is a listing of SubtitleDescriptors and whose [streams],
    when present, is a list of objects. *)
Definition is_episode (video : json) : bool :=
  match video with
  | JObj d =>
      match dict_get d "subtitles" ≫= listing with
      | Some subs => forallb is_subtitle subs
      | None => false
      end
      && match dict_get d "streams" with
         | None => true
         | Some (JArr streams) => forallb is_obj streams
         | Some _ => false
         end
  | _ => false
  end.

(** A SeasonInfo whose episodes are EpisodeRaw objects, as series mode
    needs them. *)
Definition is_full_season (season : json) : bool :=
  match season_episodes season with
  | Some episodes => forallb is_episode episodes
  | None => false
  end.

(** The episodes of all seasons, season by season, each with the name of
    the season that contains it. *)
Definition episodes_in_order (seasons : list json) : list (json * json) :=
  flat_map (fun season =>
              map (fun episode => (episode, field season "name"))
                  (default [] (season_episodes season)))
           seasons.

(** The id and the season number of an item. *)
Definition numbered (info : video_info) : json * option Z :=
  (vi_id info, vi_season_number info).

(** The [error.message] of an envelope, and whether the envelope carries an
    error: the message is there and is not empty. *)
Definition envelope_message (envelope : json) : option json :=
  match envelope with
  | JObj r =>
      match dict_get r "error" with
      | Some (JObj e) => dict_get e "message"
      | _ => None
      end
  | _ => None
  end.

Definition carries_error (envelope : json) : bool :=
  match envelope_message envelope with
  | Some message => truthy message
  | None => false
  end.

(** The text of a raised [ExtractorError]. *)
Definition error_text {A} (r : pyres A) : option string :=
  match r with
  | Raise (ExtractorError msg _) => Some msg
  | _ => None
  end.

(** ** One catalogue call, step by step *)

Definition is_str (o : json) : bool :=
  match o with
  | JStr _ => true
  | _ => false
  end.

(** The store after the header injection of [_call_api]: with a token
    that counts as true the mapping at [h] gets the Authorization entry. *)
Definition inject_auth (h : loc) (tok : json) (s : state) : state :=
  match tok with
  | JStr t =>
      if truthy tok then
        {| _auth_token := _auth_token s;
           heap := alter (fun d => dict_set d "Authorization"
                                     (JStr ("Bearer " +:+ t))) h (heap s);
           log := log s |}
      else s
  | _ => s
  end.

(** The request [_call_api] hands to [_download_json]. *)
Definition outgoing (path : string) (video_id : json) (note : option string)
    (sent : dict) : request :=
  {| req_url := _API_BASE +:+ path;
     req_video_id := video_id;
     req_headers := sent;
     req_note := Some (default "Downloading JSON metadata" note);
     req_data := None |}.

Definition record (r : request) (s : state) : state :=
  {| _auth_token := _auth_token s; heap := heap s; log := log s ++ [r] |}.

(** The default mapping of [_call_api] holds an Authorization entry. *)
Definition default_has_auth (s : state) : Prop :=
  exists hd v,
    heap s !! _call_api_headers = Some hd
    /\ dict_get hd "Authorization" = Some v.

(** ** A concrete extractor for the examples *)

Fixpoint last_segment (s cur : string) : string :=
  match s with
  | EmptyString => cur
  | String c s' =>
      if Ascii.eqb c "/" then last_segment s' ""
      else last_segment s' (cur +:+ String c EmptyString)
  end.

Definition demo_formats (group : string) (url video_id : json) : list json :=
  [JObj [("format_id", JStr group); ("url", url)]].

Definition demo_int_or_none (v : json) : option Z :=
  match v with
  | JNum n => Some n
  | _ => None
  end.

Definition demo_postdata (fields : list (string * option string)) : string :=
  String.concat "&"
    (map (fun kv : string * option string =>
            fst kv +:+ "=" +:+ default "None" (snd kv)) fields).

(** An extractor named Contar with the given credentials, talking to the
    given catalogue. *)
Definition demo_ie (login : option string * option string)
    (server : request -> pyres json) : InfoExtractor :=
  {| IE_NAME := "Contar";
     _download_json := server;
     _get_login_info := login;
     _match_id := fun url => last_segment url "";
     _extract_m3u8_formats := demo_formats "hls";
     _extract_mpd_formats := demo_formats "dash";
     format_leb := fun _ _ => true;
     int_or_none := demo_int_or_none;
     urlencode_postdata := demo_postdata;
     py_str := fun _ => "?" |}.

(** A catalogue that answers one URL with one body. *)
Definition serve (url : string) (body : json) (r : request) : pyres json :=
  if String.eqb (req_url r) url then Ok body
  else Raise (ExtractorError "HTTP Error 404: Not Found" false).

Definition no_login : option string * option string := (None, None).
Definition some_login : option string * option string :=
  (Some "viewer@example.org", Some "secret").

(** Sample data: the envelope and the series of the specification's
    examples, and a session after a successful login. *)
Definition field_errors : json :=
  JObj [("error",
         JObj [("message",
                JObj [("field1", JStr "bad"); ("field2", JStr "worse")])])].

Definition episode_raw (id : string) : json :=
  JObj [("id", JStr id);
        ("name", JStr ("Episode " +:+ id));
        ("subtitles", JObj [("data", JArr [])])].

Definition season_info (name : Z) (episodes : list json) : json :=
  JObj [("name", JNum name); ("videos", JObj [("data", JArr episodes)])].

Definition serie_of (seasons : list json) : json :=
  JObj [("id", JStr "s1");
        ("name", JStr "Vidas de Radio");
        ("story_large", JStr "Historias de la radio");
        ("year", JNum 2018);
        ("seasons", JObj [("data", JArr seasons)])].

Definition two_seasons : list json :=
  [season_info 1 [episode_raw "e1"; episode_raw "e2"];
   season_info 2 [episode_raw "e3"]].


Definition serie_url : string := "https://www.cont.ar/serie/s1".

Definition serve_serie (seasons : list json) : request -> pyres json :=
  serve (_API_BASE +:+ "serie/s1") (JObj [("data", serie_of seasons)]).

Definition failing_envelope : json :=
  JObj [("error", JObj [("message", JStr "Not found")]);
        ("data", JObj [("id", JStr "e1")])].

Definition logged_in (token : json) (headers : list dict) : state :=
  {| _auth_token := Some token; heap := [ []; [] ] ++ headers; log := [] |}.


Definition other_streams : list json :=
  [JObj [("type", JStr "RTMP"); ("url", JStr "rtmp://cont.ar/live")];
   JObj [("url", JStr "https://cont.ar/clip.mp4")]].

Definition anonymous_ie : InfoExtractor :=
  demo_ie no_login
          (serve (_API_BASE +:+ "authenticate")
                 (JObj [("token", JStr "t0ken")])).

Definition serie_ie (seasons : list json) : InfoExtractor :=
  demo_ie some_login (serve_serie seasons).

Definition failing_ie : InfoExtractor :=
  demo_ie some_login (serve (_API_BASE +:+ "videos/e1") failing_envelope).

Definition referer_headers : dict :=
  [("Referer", JStr "https://www.cont.ar/watch/e1")].

Definition basic_auth_headers : dict :=
  [("Authorization", JStr "Basic dmlld2Vy")].

(** A later session without a token whose default mapping still holds
    the entry of an earlier call. *)
Definition stale_default : state :=
  {| _auth_token := Some JNull;
     heap := [ [("Authorization", JStr "Bearer t0ken")]; [] ];
     log := [] |}.

Definition known_base : dict :=
  [("serie_info", serie_of two_seasons); ("season_number", JNum 1)].

Definition no_subtitles : dict :=
  [("id", JStr "e1"); ("streams", JArr [])].

Definition no_streams : dict :=
  [("id", JStr "e1"); ("subtitles", JObj [("data", JArr [])])].

(** ** Channel and genre pages *)

(** Modelled from the spec: [url_result] (common.py) is not in this file.
    A lazy reference holds the URL to resolve later, the id and the title,
    and nothing else. *)
Record url_ref : Type := {
  ref_url : string;
  ref_id : json;
  ref_title : json
}.

Definition url_result (url : string) (video_id video_title : json) : url_ref :=
  {| ref_url := url; ref_id := video_id; ref_title := video_title |}.

(** Modelled from the spec: [playlist_result] again, for a playlist of
    lazy references; a description that is not passed is null. *)
Record ref_playlist : Type := {
  rp_entries : list url_ref;
  rp_id : json;
  rp_title : json;
  rp_description : json
}.

Definition playlist_of_refs (entries : list url_ref)
    (playlist_id playlist_title playlist_description : json) : ref_playlist :=
  {| rp_entries := entries;
     rp_id := playlist_id;
     rp_title := playlist_title;
     rp_description := playlist_description |}.

Section ContarListings.
Context `{IE : InfoExtractor}.
Local Open Scope M_scope.

(** The loop shared by the channel and the genre page: a reference for
    each listed resource whose [type] is SERIE, the others skipped. *)
Definition refs_loop (videos : list json) (entries : list url_ref)
  : pyres (list url_ref) :=
  foldR (fun entries video =>
           bindR (py_get video "type" JNull) (fun type =>
           if py_eq type (JStr "SERIE") then
             bindR (py_get video "uuid" JNull) (fun uuid0 =>
             let url := "www.cont.ar/serie/" +:+ percent_s uuid0 in
             bindR (py_get video "uuid" JNull) (fun uuid =>
             bindR (py_get video "name" JNull) (fun name =>
             Ok (entries ++ [url_result url uuid name]))))
           else Ok entries))
        videos entries.

End ContarListings.

Module ContarChannelIE.
Section Extract.
Context `{IE : InfoExtractor}.
Local Open Scope M_scope.

Definition _real_extract (url : string) : M ref_playlist :=
  let list_id := _match_id url in
  h1 <- new_dict [("Referer", JStr url)] ;
  channel_info <- _call_api ("channel/info/" +:+ list_id) (JStr list_id)
                    (Some h1)
                    (Some "Downloading Channel Info JSON metadata") ;
  h2 <- new_dict [("Referer", JStr url)] ;
  list <- _call_api ("channel/series/" +:+ list_id) (JStr list_id)
            (Some h2)
            (Some "Downloading Channel List JSON metadata") ;
  videos <- liftR (py_iter list) ;
  entries <- liftR (refs_loop videos []) ;
  name <- liftR (py_get channel_info "name" JNull) ;
  description <- liftR (py_get channel_info "description" JNull) ;
  retM (playlist_of_refs entries (JStr list_id) name description).

End Extract.
End ContarChannelIE.

Module ContarBrowseIE.
Section Extract.
Context `{IE : InfoExtractor}.
Local Open Scope M_scope.

Definition _real_extract (url : string) : M ref_playlist :=
  let list_id := _match_id url in
  h <- new_dict [("Referer", JStr url)] ;
  list <- _call_api ("full/section/" +:+ list_id) (JStr list_id)
            (Some h) None ;
  v <- liftR (py_getitem list "videos") ;
  vd <- liftR (py_get v "data" (JArr [])) ;
  videos <- liftR (py_iter vd) ;
  entries <- liftR (refs_loop videos []) ;
  title <- liftR (py_get list "title" JNull) ;
  retM (playlist_of_refs entries (JStr list_id) title JNull).

End Extract.
End ContarBrowseIE.

(** ** Further shapes *)

(** A listed resource that the channel and genre pages keep. *)
Definition is_serie_entry (video : json) : bool :=
  py_eq (field video "type") (JStr "SERIE").

Section Shapes.
Context `{IE : InfoExtractor}.

(** The reference built for a listed resource. *)
Definition serie_ref (video : json) : url_ref :=
  url_result ("www.cont.ar/serie/" +:+ percent_s (field video "uuid"))
             (field video "uuid") (field video "name").

(** What one stream descriptor contributes to the formats. *)
Definition formats_of (video_id stream : json) : list json :=
  if py_eq (field stream "type") (JStr "HLS") then
    _extract_m3u8_formats (field stream "url") video_id
  else if py_eq (field stream "type") (JStr "DASH") then
    _extract_mpd_formats (field stream "url") video_id
  else [].

End Shapes.

(** A raw episode without the [subtitles] key whose streams, if any, are
    a list of objects. *)
Definition lacks_subtitles (video : json) : bool :=
  match video with
  | JObj d =>
      match dict_get d "subtitles" with
      | None =>
          match dict_get d "streams" with
          | None => true
          | Some (JArr streams) => forallb is_obj streams
          | Some _ => false
          end
      | Some _ => false
      end
  | _ => false
  end.

(** Values a [for] loop accepts. *)
Definition is_iterable (o : json) : bool :=
  match o with
  | JArr _ | JObj _ | JStr _ => true
  | _ => false
  end.

(** The ids of all episodes of a series, in order. *)
Definition episode_ids (seasons : list json) : list json :=
  map (fun en : json * json => field (fst en) "id")
      (episodes_in_order seasons).

(** Sample data for the listings and for a single episode. *)
Definition channel_listing : list json :=
  [JObj [("type", JStr "SERIE"); ("uuid", JStr "s1");
         ("name", JStr "Vidas de Radio")];
   JObj [("type", JStr "MOVIE"); ("uuid", JStr "m1");
         ("name", JStr "Una pelicula")]].

Definition serve_two (url1 : string) (body1 : json) (url2 : string)
    (body2 : json) (r : request) : pyres json :=
  if String.eqb (req_url r) url1 then Ok body1
  else if String.eqb (req_url r) url2 then Ok body2
  else Raise (ExtractorError "HTTP Error 404: Not Found" false).

Definition channel_ie : InfoExtractor :=
  demo_ie some_login
    (serve_two (_API_BASE +:+ "channel/info/242")
               (JObj [("data", JObj [("name", JStr "PAKAPAKA");
                                     ("description", JStr "Infantil")])])
               (_API_BASE +:+ "channel/series/242")
               (JObj [("data", JArr channel_listing)])).

Definition browse_ie : InfoExtractor :=
  demo_ie some_login
    (serve (_API_BASE +:+ "full/section/46")
           (JObj [("data",
                   JObj [("title", JStr "Infantil");
                         ("videos", JObj [("data", JArr channel_listing)])])])).

Definition episode_e3 : json :=
  JObj [("id", JStr "e3");
        ("name", JStr "Episode e3");
        ("serie", JStr "s1");
        ("episode", JNum 1);
        ("subtitles", JObj [("data", JArr [])])].

Definition watch_ie : InfoExtractor :=
  demo_ie some_login
    (serve_two (_API_BASE +:+ "videos/e3") (JObj [("data", episode_e3)])
               (_API_BASE +:+ "serie/s1")
               (JObj [("data", serie_of two_seasons)])).

Definition login_ie (body : json) : InfoExtractor :=
  demo_ie some_login (serve (_API_BASE +:+ "authenticate") body).

Definition down_ie : InfoExtractor :=
  demo_ie some_login
    (fun _ => Raise (ExtractorError "Unable to download JSON metadata" false)).

(** More sample data. *)
Definition fields_of (o : json) : dict :=
  match o with
  | JObj d => d
  | _ => []
  end.

Definition mixed_errors : dict :=
  [("error",
    JObj [("message", JObj [("field1", JStr "bad"); ("code", JNum 42)])])].

Definition mixed_streams : list json :=
  [JObj [("type", JStr "HLS"); ("url", JStr "https://cont.ar/a.m3u8")];
   JObj [("type", JStr "RTMP"); ("url", JStr "rtmp://cont.ar/live")];
   JObj [("type", JStr "DASH"); ("url", JStr "https://cont.ar/a.mpd")]].

(** A series whose second season has an episode without subtitles, and
    something that is no season at all after it. *)
Definition broken_seasons : list json :=
  [season_info 1 [episode_raw "e1"];
   season_info 2 [episode_raw "e2"; JObj [("id", JStr "e3")];
                  episode_raw "e4"];
   JNull].

Definition uninitialised : state :=
  {| _auth_token := None; heap := [ []; [] ]; log := [] |}.

Definition watch_url : string := "https://www.cont.ar/watch/e3".
Definition channel_url : string := "https://www.cont.ar/channel/242".
Definition browse_url : string := "https://www.cont.ar/browse/genre/46".

(** A catalogue that serves the channel info and nothing else. *)
Definition channel_info_only_ie : InfoExtractor :=
  demo_ie some_login
    (serve (_API_BASE +:+ "channel/info/242")
           (JObj [("data", JObj [("name", JStr "PAKAPAKA")])])).

Definition no_data_ie : InfoExtractor :=
  demo_ie some_login
    (serve (_API_BASE +:+ "videos/e1") (JObj [("status", JStr "ok")])).

(** * Properties *)

(** ** Mappings and primitives *)

Lemma dict_get_set_eq (d : dict) (k : string) (v : json) :
  dict_get (dict_set d k v) k = Some v.
Proof.
  induction d as [|[k' v'] d IH]; simpl.
  - by rewrite String.eqb_refl.
  - destruct (String.eqb k' k) eqn:E; simpl; rewrite E; [done | apply IH].
Qed.

Lemma dict_get_set_ne (d : dict) (k k' : string) (v : json) :
  k ≠ k' -> dict_get (dict_set d k v) k' = dict_get d k'.
Proof.
  intros Hne. induction d as [|[k0 v0] d IH]; simpl.
  - destruct (String.eqb k k') eqn:E; [|done].
    apply String.eqb_eq in E. congruence.
  - destruct (String.eqb k0 k) eqn:E; simpl.
    + apply String.eqb_eq in E. subst k0.
      destruct (String.eqb k k') eqn:E'; [|done].
      apply String.eqb_eq in E'. congruence.
    + by rewrite IH.
Qed.

Lemma py_join_strings (sep : string) (l : list string) :
  py_join sep (map JStr l) = Ok (String.concat sep l).
Proof.
  induction l as [|x l IH]; [done|].
  destruct l as [|y l]; [done|].
  change (py_join sep (map JStr (x :: y :: l)))
    with (bindR (py_join sep (map JStr (y :: l)))
                (fun t => Ok (x +:+ sep +:+ t))).
  by rewrite IH.
Qed.

Lemma bindM_ok {A B} (c : M A) (k : A -> M B) (s s' : state) (a : A) :
  c s = (Ok a, s') -> bindM c k s = k a s'.
Proof. intros Hc. unfold bindM. by rewrite Hc. Qed.

Lemma bindM_liftR {A B} (r : pyres A) (k : A -> M B) (s : state) :
  bindM (liftR r) k s
  = match r with
    | Ok a => k a s
    | Raise e => (Raise e, s)
    end.
Proof. unfold bindM, liftR. by destruct r. Qed.

Section Pure.
Context `{IE : InfoExtractor}.

(** ** The error-unwrap step *)

(** An envelope that carries an error makes [_handle_errors] raise. *)
Lemma handle_errors_raises (envelope : json) :
  carries_error envelope = true ->
  exists e, _handle_errors envelope = Raise e.
Proof.
  unfold carries_error, envelope_message, _handle_errors.
  destruct envelope as [| | | | |r]; try done.
  simpl. destruct (dict_get r "error") as [[| | | | |e]|]; try done.
  simpl. destruct (dict_get e "message") as [message|]; [|done].
  simpl. intros ->.
  destruct message as [| | | | |d]; simpl; eauto.
  destruct (py_join ", " (dict_values d)); simpl; eauto.
Qed.


(** C1, as amended.  When [error.message] is a non-empty mapping whose
    values are strings, the error-unwrap step raises an expected
    [ExtractorError] whose text is the extractor's name, [" said: "], and
    the mapping's values in the mapping's order joined by [", "]. *)
Theorem handle_errors_mapping (r e : dict) (subs : list (string * string)) :
  dict_get r "error" = Some (JObj e) ->
  dict_get e "message"
    = Some (JObj (map (fun kv : string * string => (fst kv, JStr (snd kv)))
                      subs)) ->
  subs <> [] ->
  _handle_errors (JObj r)
  = Raise (ExtractorError
             (IE_NAME +:+ " said: " +:+ String.concat ", " (map snd subs))
             true).
Proof.
  intros Herr Hmsg Hne. unfold _handle_errors. simpl.
  rewrite Herr. simpl. rewrite Hmsg. simpl.
  replace (dict_values
             (map (fun kv : string * string => (fst kv, JStr (snd kv))) subs))
    with (map JStr (map snd subs))
    by (unfold dict_values; by rewrite !map_map).
  rewrite py_join_strings.
  by destruct subs.
Qed.

(** ** Stream formats *)

Lemma py_get_obj (o : json) (k : string) :
  is_obj o = true -> py_get o k JNull = Ok (field o k).
Proof. by destruct o. Qed.

(** C2.  When every stream descriptor has a [type] that is neither HLS nor
    DASH, and also when there is no descriptor at all, [_get_formats]
    returns the empty list and raises nothing. *)
Theorem get_formats_unsupported (videos : list json) (video_id : json) :
  forallb unsupported videos = true ->
  _get_formats (JArr videos) video_id = Ok [].
Proof.
  intros Hall. unfold _get_formats. simpl.
  match goal with
  | |- context [foldR ?f videos []] =>
      assert (Hloop : forall acc, foldR f videos acc = Ok acc)
  end.
  { induction videos as [|stream videos IH]; intros acc; [done|].
    simpl in Hall. apply andb_true_iff in Hall as [Hs Hrest].
    unfold unsupported in Hs.
    apply andb_true_iff in Hs as [Hs Hdash].
    apply andb_true_iff in Hs as [Hobj Hhls].
    apply negb_true_iff in Hhls, Hdash.
    simpl. rewrite !(py_get_obj stream) by done. simpl.
    rewrite Hhls, Hdash. simpl. by apply IH. }
  by rewrite Hloop.
Qed.

(** ** Subtitles *)

Lemma last_write_cons (sub : json) (subs : list json) (k : string) :
  last_write (sub :: subs) k
  = match last_write subs k with
    | Some v => Some v
    | None => if decide (sub_key sub = k)
              then Some (srt_track (field sub "url")) else None
    end.
Proof.
  unfold last_write. rewrite filter_cons.
  destruct (decide (sub_key sub = k)) as [Hk|Hk].
  - rewrite last_cons. by destruct (last _).
  - by destruct (last _).
Qed.

Lemma get_subtitles_loop (subs : list json) (m0 : gmap string json) :
  forallb is_subtitle subs = true ->
  exists m,
    foldR (fun (subs : gmap string json) sub =>
             bindR (py_get sub "lang" JNull) (fun l =>
             bindR (py_lower l) (fun lang =>
             bindR (py_get sub "url" JNull) (fun url =>
             Ok (<[lang := srt_track url]> subs)))))
          subs m0 = Ok m
    /\ forall k, m !! k = match last_write subs k with
                          | Some v => Some v
                          | None => m0 !! k
                          end.
Proof.
  revert m0. induction subs as [|sub subs IH]; intros m0 Hall.
  - exists m0. by split.
  - simpl in Hall. apply andb_true_iff in Hall as [Hsub Hrest].
    destruct sub as [| | | | |d]; try done. simpl in Hsub.
    destruct (dict_get d "lang") as [[| | |l| |]|] eqn:Hl; try done.
    simpl. rewrite Hl. simpl.
    destruct (IH (<[str_lower l := srt_track (default JNull (dict_get d "url"))]> m0)
                 Hrest) as (m & Hm & Hlook).
    exists m. split; [done|]. intros k. rewrite Hlook, last_write_cons.
    destruct (last_write subs k); [done|].
    unfold sub_key, field. rewrite Hl. simpl.
    destruct (decide (str_lower l = k)) as [->|Hne].
    + by rewrite lookup_insert_eq.
    + by rewrite lookup_insert_ne.
Qed.


(** ** Season numbers *)

Lemma listing_iter (o : json) (l : list json) :
  listing o = Some l ->
  bindR (py_get o "data" (JArr [])) py_iter = Ok l.
Proof.
  destruct o as [| | | | |d]; try done. simpl.
  destruct (dict_get d "data") as [[| | | |l'|]|]; simpl; congruence.
Qed.

Lemma find_episode_loop (episodes : list json) (video_id name : json) :
  forallb is_obj episodes = true ->
  for_first (fun episode =>
               bindR (py_get episode "id" JNull) (fun id =>
               Ok (if py_eq id video_id then Some name else None)))
            episodes
  = Ok (if existsb (fun episode => py_eq (field episode "id") video_id)
                   episodes
        then Some name else None).
Proof.
  induction episodes as [|episode episodes IH]; intros Hall; [done|].
  simpl in Hall. apply andb_true_iff in Hall as [Hobj Hrest].
  simpl. rewrite py_get_obj by done. simpl.
  destruct (py_eq (field episode "id") video_id); [done|].
  by apply IH.
Qed.

Lemma scan_seasons_loop (seasons : list json) (video_id : json) :
  forallb is_season seasons = true ->
  for_first (fun season =>
     bindR (py_get season "name" JNull) (fun season_number =>
     bindR (py_getitem season "videos") (fun v =>
     bindR (py_get v "data" (JArr [])) (fun vd =>
     bindR (py_iter vd) (fun episodes =>
     for_first (fun episode =>
        bindR (py_get episode "id" JNull) (fun id =>
        Ok (if py_eq id video_id then Some season_number else None)))
        episodes))))) seasons
  = Ok ((fun season => field season "name")
          <$> List.find (contains_episode video_id) seasons).
Proof.
  induction seasons as [|season seasons IH]; intros Hwf; [done|].
  simpl in Hwf. apply andb_true_iff in Hwf as [Hseason Hrest].
  unfold is_season in Hseason.
  cbn [List.find]. unfold contains_episode at 1.
  destruct (season_episodes season) as [episodes|] eqn:He; [|done].
  destruct season as [| | | | |sd]; try done.
  cbn [season_episodes] in He.
  destruct (dict_get sd "videos") as [v|] eqn:Hv; [|done].
  cbn [mbind option_bind] in He.
  cbn [for_first py_get py_getitem]. rewrite Hv. cbn [bindR].
  pose proof (listing_iter v episodes He) as Hiter.
  unfold bindR in Hiter at 1.
  destruct (py_get v "data" (JArr [])) as [vd|]; [|done]. cbn [bindR].
  rewrite Hiter. cbn [bindR].
  rewrite find_episode_loop by done. cbn [default from_option id bindR].
  destruct (existsb _ episodes); [done|].
  by apply IH.
Qed.

(** C4.  For every SeriesInfo and episode id, [_get_season_number] returns
    the name of the first season, in the returned order, whose episode list
    contains an episode with that id, and returns null, without raising,
    when no season contains the id. *)
Theorem get_season_number_first_match (serie_info video_id : json) :
  is_serie serie_info = true ->
  _get_season_number serie_info video_id = Ok (season_of serie_info video_id)
  /\ ((forall season,
         In season (default [] (serie_seasons serie_info)) ->
         contains_episode video_id season = false) ->
      _get_season_number serie_info video_id = Ok JNull).
Proof.
  intros Hwf.
  assert (Hmain : _get_season_number serie_info video_id
                  = Ok (season_of serie_info video_id)).
  { unfold is_serie in Hwf. unfold _get_season_number, season_of.
    destruct (serie_seasons serie_info) as [seasons|] eqn:Hs; [|done].
    destruct serie_info as [| | | | |d]; try done.
    cbn [serie_seasons] in Hs. cbn [py_getitem].
    destruct (dict_get d "seasons") as [s|]; [|done].
    cbn [mbind option_bind] in Hs. cbn [bindR].
    pose proof (listing_iter s seasons Hs) as Hiter.
    unfold bindR in Hiter at 1.
    destruct (py_get s "data" (JArr [])) as [sd|]; [|done]. cbn [bindR].
    rewrite Hiter. cbn [bindR].
    rewrite scan_seasons_loop by done. cbn [bindR].
    change (default [] (Some seasons)) with seasons.
    by destruct (List.find _ seasons). }
  split; [exact Hmain|].
  intros Hnone. rewrite Hmain. f_equal. unfold season_of.
  destruct (List.find _ _) as [season|] eqn:Hfind; [|done].
  apply List.find_some in Hfind as [Hin Hc].
  rewrite (Hnone season Hin) in Hc. done.
Qed.

End Pure.

Section Network.
Context `{IE : InfoExtractor}.

(** ** The catalogue call *)

(** What the envelope check and the [data] lookup make of an answer. *)
Lemma call_api_exec (path : string) (video_id : json) (headers : option loc)
    (note : option string) (s : state) (tok : json) :
  _auth_token s = Some tok ->
  truthy tok = false \/ is_str tok = true ->
  let h := default _call_api_headers headers in
  let s1 := inject_auth h tok s in
  let req := outgoing path video_id note (default [] (heap s1 !! h)) in
  _call_api path video_id headers note s
  = (bindR (_download_json req) (fun result =>
       bindR (_handle_errors result) (fun _ => py_getitem result "data")),
     record req s1).
Proof.
  intros Htok Hkind. unfold _call_api, bindM, get_auth_token.
  rewrite Htok. cbn zeta.
  destruct Hkind as [Hfalse|Hstr].
  - rewrite Hfalse. unfold inject_auth.
    replace (match tok with JStr t => if truthy tok then _ else s | _ => s end)
      with s by (destruct tok; try done; by rewrite Hfalse).
    unfold retM, read_dict, download, liftR, outgoing, record. cbn.
    destruct (_download_json _) as [result|e]; [|done].
    cbn. by destruct (_handle_errors result).
  - destruct tok as [| | |t| |]; try done. unfold inject_auth.
    destruct (truthy (JStr t)).
    + unfold liftR, py_concat, setitem, read_dict, download, outgoing, record.
      cbn. destruct (_download_json _) as [result|e]; [|done].
      cbn. by destruct (_handle_errors result).
    + unfold retM, read_dict, download, liftR, outgoing, record. cbn.
      destruct (_download_json _) as [result|e]; [|done].
      cbn. by destruct (_handle_errors result).
Qed.

(** Without a usable token the call stops before the network. *)
Lemma call_api_no_token (path : string) (video_id : json)
    (headers : option loc) (note : option string) (s : state) :
  match _auth_token s with
  | None => True
  | Some tok => truthy tok = true /\ is_str tok = false
  end ->
  exists e, _call_api path video_id headers note s = (Raise e, s).
Proof.
  unfold _call_api, bindM, get_auth_token.
  destruct (_auth_token s) as [tok|]; [|by eauto].
  intros [Htrue Hstr]. cbn zeta. rewrite Htrue.
  unfold liftR. destruct tok; try done; cbn; eauto.
Qed.

Lemma token_cases (s : state) :
  match _auth_token s with
  | None => True
  | Some tok => truthy tok = true /\ is_str tok = false
  end
  \/ exists tok, _auth_token s = Some tok
                 /\ (truthy tok = false \/ is_str tok = true).
Proof.
  destruct (_auth_token s) as [tok|]; [|by left].
  destruct (truthy tok) eqn:Ht; [|right; eauto].
  destruct (is_str tok) eqn:Hs; [right; eauto | by left].
Qed.


(** ** Headers *)

Lemma truthy_str (t : string) : t <> "" -> truthy (JStr t) = true.
Proof.
  intros Hne. simpl. apply negb_true_iff, String.eqb_neq. exact Hne.
Qed.

Lemma inject_auth_token (h : loc) (t : string) (s : state) :
  t <> "" ->
  inject_auth h (JStr t) s
  = {| _auth_token := _auth_token s;
       heap := alter (fun d => dict_set d "Authorization"
                                 (JStr ("Bearer " +:+ t))) h (heap s);
       log := log s |}.
Proof. intros Hne. unfold inject_auth. by rewrite truthy_str. Qed.

Lemma inject_auth_falsy (h : loc) (tok : json) (s : state) :
  truthy tok = false -> inject_auth h tok s = s.
Proof. intros Hf. unfold inject_auth. destruct tok; try done. by rewrite Hf. Qed.

Lemma inject_auth_keeps_default (h : loc) (tok : json) (s : state) :
  default_has_auth s -> default_has_auth (inject_auth h tok s).
Proof.
  intros (hd & v & Hhd & Hv). unfold inject_auth.
  destruct tok as [| | |t| |]; try (by exists hd, v).
  destruct (truthy (JStr t)); [|by exists hd, v].
  unfold default_has_auth. cbn [heap].
  destruct (decide (h = _call_api_headers)) as [->|Hne].
  - eexists _, _. rewrite list_lookup_alter_eq, Hhd. split; [done|].
    apply dict_get_set_eq.
  - exists hd, v. by rewrite list_lookup_alter_ne.
Qed.

(** The state a call leaves: untouched when the call stops before the
    network, otherwise the header injection followed by one logged
    request whose headers are the mapping's contents after the
    injection. *)
Lemma call_api_state (path : string) (video_id : json) (headers : option loc)
    (note : option string) (s : state) :
  snd (_call_api path video_id headers note s) = s
  \/ exists tok,
       _auth_token s = Some tok
       /\ (truthy tok = false \/ is_str tok = true)
       /\ let h := default _call_api_headers headers in
          let s1 := inject_auth h tok s in
          snd (_call_api path video_id headers note s)
          = record (outgoing path video_id note (default [] (heap s1 !! h)))
                   s1.
Proof.
  destruct (token_cases s) as [Hbad|(tok & Htok & Hkind)].
  - left. destruct (call_api_no_token path video_id headers note s Hbad)
      as [e He]. by rewrite He.
  - right. exists tok. split; [done|]. split; [done|]. cbn zeta.
    by rewrite (call_api_exec path video_id headers note s tok Htok Hkind).
Qed.

(** C8, as amended.  In a call of [_call_api] with a headers mapping of the
    caller and a session token (a non-empty string), the outgoing headers
    are the caller's mapping with the Authorization entry set to Bearer
    and the token: every entry of the caller under another key is there
    unchanged, in the caller's order.  With a token that counts as false
    (null or empty) the outgoing headers are the caller's. *)
Theorem call_api_headers_merged (path : string) (video_id : json) (h : loc)
    (note : option string) (s : state) (hd : dict) (tok : json) :
  heap s !! h = Some hd ->
  _auth_token s = Some tok ->
  let s' := snd (_call_api path video_id (Some h) note s) in
  (forall t, tok = JStr t -> t <> "" ->
     exists req,
       log s' = log s ++ [req]
       /\ req_headers req
          = dict_set hd "Authorization" (JStr ("Bearer " +:+ t))
       /\ dict_get (req_headers req) "Authorization"
          = Some (JStr ("Bearer " +:+ t))
       /\ forall k, k <> "Authorization" ->
                    dict_get (req_headers req) k = dict_get hd k)
  /\ (truthy tok = false ->
      exists req, log s' = log s ++ [req] /\ req_headers req = hd).
Proof.
  intros Hhd Htok s'. subst s'. split.
  - intros t -> Hne.
    rewrite (call_api_exec path video_id (Some h) note s (JStr t) Htok)
      by (by right).
    cbn [snd]. change (default _call_api_headers (Some h)) with h.
    rewrite inject_auth_token by done. cbn [heap].
    rewrite list_lookup_alter_eq, Hhd.
    eexists. split; [done|]. simpl.
    split; [done|]. split; [apply dict_get_set_eq|].
    intros k Hk. by apply dict_get_set_ne.
  - intros Hfalse.
    rewrite (call_api_exec path video_id (Some h) note s tok Htok)
      by (by left).
    cbn [snd]. change (default _call_api_headers (Some h)) with h.
    rewrite inject_auth_falsy by done. rewrite Hhd.
    eexists. by split.
Qed.

(** C9.  With a session token, [_call_api] writes the Authorization entry
    into the mapping object it was given: after the call the caller finds
    the entry in its own mapping.  A call that omits [headers] writes into
    the one default mapping; from then on the entry stays there through
    every later call, and every later call that omits [headers] sends an
    Authorization entry, the stored one unchanged when that call is made
    without a token. *)
Theorem call_api_mutates_headers (path : string) (video_id : json)
    (note : option string) (s : state) (t : string) :
  _auth_token s = Some (JStr t) ->
  t <> "" ->
  (forall h hd,
     heap s !! h = Some hd ->
     heap (snd (_call_api path video_id (Some h) note s)) !! h
     = Some (dict_set hd "Authorization" (JStr ("Bearer " +:+ t))))
  /\ (forall hd,
        heap s !! _call_api_headers = Some hd ->
        heap (snd (_call_api path video_id None note s)) !! _call_api_headers
        = Some (dict_set hd "Authorization" (JStr ("Bearer " +:+ t)))
        /\ default_has_auth (snd (_call_api path video_id None note s)))
  /\ (forall s2 path2 video_id2 headers2 note2,
        default_has_auth s2 ->
        default_has_auth (snd (_call_api path2 video_id2 headers2 note2 s2)))
  /\ (forall s2 path2 video_id2 note2,
        default_has_auth s2 ->
        let s3 := snd (_call_api path2 video_id2 None note2 s2) in
        (forall req, log s3 = log s2 ++ [req] ->
                     exists v, dict_get (req_headers req) "Authorization"
                               = Some v)
        /\ (forall tok2 hd2,
              _auth_token s2 = Some tok2 ->
              truthy tok2 = false ->
              heap s2 !! _call_api_headers = Some hd2 ->
              exists req,
                log s3 = log s2 ++ [req]
                /\ dict_get (req_headers req) "Authorization"
                   = dict_get hd2 "Authorization")).
Proof.
  intros Htok Hne.
  assert (Hwrite : forall headers h hd,
             default _call_api_headers headers = h ->
             heap s !! h = Some hd ->
             heap (snd (_call_api path video_id headers note s)) !! h
             = Some (dict_set hd "Authorization" (JStr ("Bearer " +:+ t)))).
  { intros headers h hd Hh Hhd.
    rewrite (call_api_exec path video_id headers note s (JStr t) Htok)
      by (by right).
    cbn [snd]. rewrite Hh, inject_auth_token by done. cbn [record heap].
    by rewrite list_lookup_alter_eq, Hhd. }
  assert (Hkeep : forall s2 path2 video_id2 headers2 note2,
             default_has_auth s2 ->
             default_has_auth
               (snd (_call_api path2 video_id2 headers2 note2 s2))).
  { intros s2 path2 video_id2 headers2 note2 Hauth.
    destruct (call_api_state path2 video_id2 headers2 note2 s2)
      as [->|(tok2 & _ & _ & Hrun)]; [done|].
    cbn zeta in Hrun. rewrite Hrun.
    exact (inject_auth_keeps_default _ tok2 s2 Hauth). }
  split; [|split; [|split; [exact Hkeep|]]].
  - intros h hd Hhd. by apply Hwrite.
  - intros hd Hhd. split; [by apply Hwrite|].
    eexists _, _. split; [by apply Hwrite|]. apply dict_get_set_eq.
  - intros s2 path2 video_id2 note2 Hauth s3. subst s3. split.
    + intros req Hlog.
      destruct (call_api_state path2 video_id2 None note2 s2)
        as [Hsame|(tok2 & _ & _ & Hrun)].
      * rewrite Hsame in Hlog.
        apply (f_equal length) in Hlog. rewrite length_app in Hlog.
        simpl in Hlog. lia.
      * cbn zeta in Hrun. rewrite Hrun in Hlog. cbn [record log] in Hlog.
        assert (Hsame : log (inject_auth (default _call_api_headers None)
                                         tok2 s2) = log s2).
        { unfold inject_auth. destruct tok2; try done.
          by destruct (truthy _). }
        rewrite Hsame in Hlog. apply app_inv_head in Hlog.
        injection Hlog as <-. cbn [req_headers outgoing].
        destruct (inject_auth_keeps_default
                    (default _call_api_headers None) tok2 s2 Hauth)
          as (hd & v & Hhd & Hv).
        change (default _call_api_headers None) with _call_api_headers in *.
        rewrite Hhd. by exists v.
    + intros tok2 hd2 Htok2 Hfalse Hhd2.
      rewrite (call_api_exec path2 video_id2 None note2 s2 tok2 Htok2)
        by (by left).
      cbn [snd]. change (default _call_api_headers None) with _call_api_headers.
      rewrite inject_auth_falsy by done. rewrite Hhd2.
      eexists. by split.
Qed.

(** ** Building one item *)

Lemma listing_get (o : json) (l : list json) :
  listing o = Some l -> py_get o "data" (JArr []) = Ok (JArr l).
Proof.
  destruct o as [| | | | |d]; try done. simpl.
  destruct (dict_get d "data") as [[| | | |l'|]|]; simpl; congruence.
Qed.

Lemma get_formats_total (streams : list json) (video_id : json) :
  forallb is_obj streams = true ->
  exists formats, _get_formats (JArr streams) video_id = Ok formats.
Proof.
  intros Hall. unfold _get_formats. simpl.
  match goal with
  | |- context [foldR ?f streams []] =>
      assert (Hloop : forall acc, exists formats,
                 foldR f streams acc = Ok formats)
  end.
  { induction streams as [|stream streams IH]; intros acc; [by eexists|].
    simpl in Hall. apply andb_true_iff in Hall as [Hobj Hrest].
    simpl. rewrite !(py_get_obj stream) by done. simpl.
    destruct (py_eq _ (JStr "HLS")); [by apply IH|].
    destruct (py_eq _ (JStr "DASH")); by apply IH. }
  destruct (Hloop []) as [formats ->]. by eexists.
Qed.

Lemma get_subtitles_total (subs : list json) (video_id : json) :
  forallb is_subtitle subs = true ->
  exists m, _get_subtitles (JArr subs) video_id = Ok m.
Proof.
  intros Hall. destruct (get_subtitles_loop subs ∅ Hall) as (m & Hm & _).
  by exists m.
Qed.

(** [_get_video_info] on an EpisodeRaw when the traversal context knows
    the series and the season: no call is made and the state is left as it
    was. *)
Lemma get_video_info_known (d : dict) (video_id : json) (base : dict)
    (serie_info name : json) (s : state) :
  is_episode (JObj d) = true ->
  dict_get base "serie_info" = Some serie_info ->
  is_obj serie_info = true ->
  truthy serie_info = true ->
  dict_get base "season_number" = Some name ->
  truthy name = true ->
  exists info,
    _get_video_info (JObj d) video_id base s = (Ok info, s)
    /\ vi_id info = field (JObj d) "id"
    /\ vi_season_number info = int_or_none name
    /\ vi_release_year info = int_or_none (field serie_info "year")
    /\ (dict_get d "streams" = None -> vi_formats info = []).
Proof.
  intros Hep Hsi Hobj Htrue Hname Hntrue.
  unfold is_episode in Hep. apply andb_true_iff in Hep as [Hsubs Hstreams].
  destruct (dict_get d "subtitles") as [sobj|] eqn:Hsobj; [|done].
  cbn [mbind option_bind] in Hsubs.
  destruct (listing sobj) as [subs|] eqn:Hlist; [|done].
  destruct (get_subtitles_total subs (field (JObj d) "id") Hsubs)
    as [subtitles Hsubtitles].
  assert (Hformats : exists formats,
             _get_formats (default (JArr []) (dict_get d "streams"))
                          (field (JObj d) "id") = Ok formats
             /\ (dict_get d "streams" = None -> formats = [])).
  { destruct (dict_get d "streams") as [[| | | |streams|]|]; try done.
    - destruct (get_formats_total streams (field (JObj d) "id") Hstreams)
        as [formats Hf].
      exists formats. by split.
    - exists []. by split. }
  destruct Hformats as (formats & Hformats & Hnone).
  unfold _get_video_info, bindM, liftR, retM.
  cbn [py_get py_getitem]. cbn [field] in Hformats, Hsubtitles.
  rewrite Hformats, Hsobj, (listing_get sobj subs Hlist), Hsubtitles.
  rewrite Hsi, Hname. cbn [default from_option id].
  rewrite Htrue, Hntrue.
  rewrite (py_get_obj serie_info "year") by done.
  eexists. split; [reflexivity|]. cbn. by repeat split.
Qed.

(** C10.  [_get_video_info] needs the [subtitles] key of the raw
    episode: without it the call raises, with [KeyError] as soon as the
    streams could be resolved, and returns no item.  A raw episode without
    the [streams] key is accepted: the streams default to the empty list
    and the item's formats list is empty. *)
Theorem get_video_info_partial (d : dict) (video_id : json) (base : dict)
    (s : state) :
  (dict_get d "subtitles" = None ->
   (exists e, fst (_get_video_info (JObj d) video_id base s) = Raise e)
   /\ (forall formats,
         _get_formats (default (JArr []) (dict_get d "streams"))
                      (field (JObj d) "id") = Ok formats ->
         _get_video_info (JObj d) video_id base s
         = (Raise (KeyError "subtitles"), s)))
  /\ (dict_get d "streams" = None ->
      is_episode (JObj d) = true ->
      forall serie_info name,
        dict_get base "serie_info" = Some serie_info ->
        is_obj serie_info = true ->
        truthy serie_info = true ->
        dict_get base "season_number" = Some name ->
        truthy name = true ->
        exists info,
          _get_video_info (JObj d) video_id base s = (Ok info, s)
          /\ vi_formats info = []).
Proof.
  split.
  - intros Hmissing.
    unfold _get_video_info, bindM, liftR. cbn [py_get py_getitem field].
    rewrite Hmissing. split.
    + destruct (_get_formats _ _); cbn; eauto.
    + by intros formats ->.
  - intros Hstreams Hep serie_info name Hsi Hobj Htrue Hname Hntrue.
    destruct (get_video_info_known d video_id base serie_info name s
                Hep Hsi Hobj Htrue Hname Hntrue)
      as (info & Hrun & _ & _ & _ & Hformats).
    exists info. split; [exact Hrun | by apply Hformats].
Qed.

(** ** Series mode *)

Lemma episodes_loop_known (serie_id : json) (base : dict)
    (serie_info name : json) (episodes : list json)
    (entries : list video_info) (s : state) :
  forallb is_episode episodes = true ->
  dict_get base "serie_info" = Some serie_info ->
  is_obj serie_info = true ->
  truthy serie_info = true ->
  dict_get base "season_number" = Some name ->
  truthy name = true ->
  exists built,
    ContarSerieIE.episodes_loop serie_id base episodes entries s
    = (Ok (entries ++ built), s)
    /\ map numbered built
       = map (fun episode => (field episode "id", int_or_none name)) episodes.
Proof.
  intros Hall Hsi Hobj Htrue Hname Hntrue. revert entries.
  induction episodes as [|episode episodes IH]; intros entries.
  - exists []. by rewrite app_nil_r.
  - simpl in Hall. apply andb_true_iff in Hall as [Hep Hrest].
    destruct episode as [| | | | |d]; try done.
    destruct (get_video_info_known d serie_id base serie_info name s
                Hep Hsi Hobj Htrue Hname Hntrue)
      as (info & Hrun & Hid & Hseason & _).
    destruct (IH Hrest (entries ++ [info])) as (built & Hloop & Hbuilt).
    exists (info :: built). split.
    + unfold ContarSerieIE.episodes_loop in *. cbn [foldM].
      rewrite (bindM_ok _ _ s s (entries ++ [info])).
      * rewrite Hloop. by rewrite <- app_assoc.
      * by rewrite (bindM_ok _ _ s s info Hrun).
    + cbn [map]. rewrite Hbuilt. unfold numbered. by rewrite Hid, Hseason.
Qed.

Lemma seasons_loop_known (serie_id serie_info : json) (seasons : list json)
    (base : dict) (entries : list video_info) (s : state) :
  forallb is_full_season seasons = true ->
  forallb (fun season => truthy (field season "name")) seasons = true ->
  dict_get base "serie_info" = Some serie_info ->
  is_obj serie_info = true ->
  truthy serie_info = true ->
  exists base' built,
    ContarSerieIE.seasons_loop serie_id seasons base entries s
    = (Ok (base', entries ++ built), s)
    /\ map numbered built
       = map (fun en : json * json =>
                (field (fst en) "id", int_or_none (snd en)))
             (episodes_in_order seasons).
Proof.
  intros Hall Hnames Hsi Hobj Htrue. revert base entries Hsi.
  induction seasons as [|season seasons IH]; intros base entries Hsi.
  - exists base, []. by rewrite app_nil_r.
  - simpl in Hall, Hnames.
    apply andb_true_iff in Hall as [Hseason Hrest].
    apply andb_true_iff in Hnames as [Hname Hnames].
    unfold is_full_season in Hseason.
    destruct (season_episodes season) as [episodes|] eqn:He; [|done].
    destruct season as [| | | | |sd]; try done.
    cbn [season_episodes] in He.
    destruct (dict_get sd "videos") as [v|] eqn:Hv; [|done].
    cbn [mbind option_bind] in He.
    set (name := field (JObj sd) "name") in *.
    set (base1 := dict_set base "season_number" name).
    assert (Hsi1 : dict_get base1 "serie_info" = Some serie_info).
    { unfold base1. by rewrite dict_get_set_ne. }
    assert (Hname1 : dict_get base1 "season_number" = Some name).
    { apply dict_get_set_eq. }
    destruct (episodes_loop_known serie_id base1 serie_info name episodes
                entries s Hseason Hsi1 Hobj Htrue Hname1 Hname)
      as (built1 & Hloop1 & Hbuilt1).
    destruct (IH Hrest Hnames base1 (entries ++ built1) Hsi1)
      as (base' & built & Hloop & Hbuilt).
    exists base', (built1 ++ built). split.
    + unfold ContarSerieIE.seasons_loop in *. cbn [foldM].
      rewrite (bindM_ok _ _ s s (base1, entries ++ built1)).
      * rewrite Hloop. by rewrite <- app_assoc.
      * rewrite bindM_liftR. cbn [py_get].
        rewrite bindM_liftR. cbn [py_getitem]. rewrite Hv.
        rewrite bindM_liftR, (listing_get v episodes He).
        rewrite bindM_liftR. cbn [py_iter].
        by rewrite (bindM_ok _ _ s s (entries ++ built1) Hloop1).
    + cbn [episodes_in_order flat_map]. rewrite !map_app, Hbuilt1, Hbuilt.
      unfold episodes_in_order. f_equal.
      cbn [season_episodes]. rewrite Hv. cbn [mbind option_bind].
      rewrite He. cbn [default from_option id]. by rewrite map_map.
Qed.


(** ** Initialisation *)

(** C7.  Without credentials [_real_initialize] raises the login-required
    error at once: the state is left as it was, so no call of
    [_download_json] has been made and no token has been stored. *)
Theorem real_initialize_login_required (s : state) :
  fst _get_login_info = None ->
  _real_initialize s = (Raise AuthRequiredError, s)
  /\ log (snd (_real_initialize s)) = log s.
Proof.
  intros Hnone. unfold _real_initialize.
  destruct _get_login_info as [email password]. simpl in Hnone. subst email.
  by split.
Qed.

End Network.

(** * Examples *)

(** The specification's envelope: the text carries the extractor's name
    in front of the joined values. *)
Lemma handle_errors_mapping_example :
  _handle_errors (IE := anonymous_ie) field_errors
  = Raise (ExtractorError "Contar said: bad, worse" true).
Proof.
  apply (handle_errors_mapping (IE := anonymous_ie)
           [("error",
             JObj [("message",
                    JObj [("field1", JStr "bad"); ("field2", JStr "worse")])])]
           [("message",
             JObj [("field1", JStr "bad"); ("field2", JStr "worse")])]
           [("field1", "bad"); ("field2", "worse")]);
    [reflexivity | reflexivity | discriminate].
Defined.

(** C1 as stated fails: on the specification's envelope the text is not
    the bare joined values, and an empty mapping raises nothing. *)
Lemma handle_errors_text_is_prefixed :
  error_text (_handle_errors (IE := anonymous_ie) field_errors)
  = Some "Contar said: bad, worse"
  /\ error_text (_handle_errors (IE := anonymous_ie) field_errors)
     <> Some "bad, worse"
  /\ _handle_errors (IE := anonymous_ie)
       (JObj [("error", JObj [("message", JObj [])])]) = Ok tt.
Proof. split; [reflexivity|]. split; [discriminate | reflexivity]. Qed.

Lemma get_formats_unsupported_example :
  _get_formats (IE := anonymous_ie) (JArr other_streams) (JStr "e1") = Ok []
  /\ _get_formats (IE := anonymous_ie) (JArr []) (JStr "e1") = Ok [].
Proof.
  split; apply (get_formats_unsupported (IE := anonymous_ie)); reflexivity.
Defined.


(** The specification's series: e3 is in season 2, e9 in none. *)
Lemma get_season_number_example :
  _get_season_number (serie_of two_seasons) (JStr "e3") = Ok (JNum 2)
  /\ _get_season_number (serie_of two_seasons) (JStr "e9") = Ok JNull.
Proof.
  split.
  - exact (proj1 (get_season_number_first_match
                    (serie_of two_seasons) (JStr "e3") eq_refl)).
  - apply (proj2 (get_season_number_first_match
                    (serie_of two_seasons) (JStr "e9") eq_refl)).
    intros season [<-|[<-|[]]]; reflexivity.
Defined.




Lemma real_initialize_example :
  _real_initialize (IE := anonymous_ie) initial_state
  = (Raise AuthRequiredError, initial_state)
  /\ log (snd (_real_initialize (IE := anonymous_ie) initial_state)) = [].
Proof.
  apply (real_initialize_login_required (IE := anonymous_ie) initial_state).
  reflexivity.
Defined.

Lemma call_api_headers_example :
  (exists req,
     log (snd (_call_api (IE := failing_ie) "videos/e1" (JStr "e1")
                         (Some 2%nat) None
                         (logged_in (JStr "t0ken") [referer_headers])))
     = [req]
     /\ req_headers req
        = [("Referer", JStr "https://www.cont.ar/watch/e1");
           ("Authorization", JStr "Bearer t0ken")])
  /\ (exists req,
        log (snd (_call_api (IE := failing_ie) "videos/e1" (JStr "e1")
                            (Some 2%nat) None
                            (logged_in JNull [referer_headers])))
        = [req]
        /\ req_headers req = referer_headers).
Proof.
  split.
  - destruct (proj1 (call_api_headers_merged (IE := failing_ie)
                       "videos/e1" (JStr "e1") 2%nat None
                       (logged_in (JStr "t0ken") [referer_headers])
                       referer_headers (JStr "t0ken") eq_refl eq_refl)
                    "t0ken" eq_refl ltac:(discriminate))
      as (req & Hlog & Hsent & _).
    exists req. split; [exact Hlog | exact Hsent].
  - destruct (proj2 (call_api_headers_merged (IE := failing_ie)
                       "videos/e1" (JStr "e1") 2%nat None
                       (logged_in JNull [referer_headers])
                       referer_headers JNull eq_refl eq_refl)
                    eq_refl)
      as (req & Hlog & Hsent).
    exists req. split; [exact Hlog | exact Hsent].
Defined.

(** C8 as stated fails: an Authorization entry of the caller is replaced,
    not kept. *)
Lemma call_api_replaces_authorization :
  exists req,
    log (snd (_call_api (IE := failing_ie) "videos/e1" (JStr "e1")
                        (Some 2%nat) None
                        (logged_in (JStr "t0ken") [basic_auth_headers])))
    = [req]
    /\ dict_get basic_auth_headers "Authorization"
       = Some (JStr "Basic dmlld2Vy")
    /\ dict_get (req_headers req) "Authorization"
       = Some (JStr "Bearer t0ken").
Proof. eexists. split; [vm_compute; reflexivity|]. split; reflexivity. Qed.

Lemma call_api_mutation_example :
  heap (snd (_call_api (IE := failing_ie) "videos/e1" (JStr "e1")
                       (Some 2%nat) None
                       (logged_in (JStr "t0ken") [referer_headers])))
    !! 2%nat
  = Some [("Referer", JStr "https://www.cont.ar/watch/e1");
          ("Authorization", JStr "Bearer t0ken")]
  /\ heap (snd (_call_api (IE := failing_ie) "videos/e1" (JStr "e1")
                          None None (logged_in (JStr "t0ken") [])))
       !! _call_api_headers
     = Some [("Authorization", JStr "Bearer t0ken")]
  /\ exists req,
       log (snd (_call_api (IE := failing_ie) "videos/e2" (JStr "e2")
                           None None stale_default))
       = [req]
       /\ dict_get (req_headers req) "Authorization"
          = Some (JStr "Bearer t0ken").
Proof.
  pose proof (call_api_mutates_headers (IE := failing_ie)
                "videos/e1" (JStr "e1") None
                (logged_in (JStr "t0ken") [referer_headers]) "t0ken"
                eq_refl ltac:(discriminate)) as (Hcaller & _ & _ & Hlater).
  pose proof (call_api_mutates_headers (IE := failing_ie)
                "videos/e1" (JStr "e1") None
                (logged_in (JStr "t0ken") []) "t0ken"
                eq_refl ltac:(discriminate)) as (_ & Hdefault & _).
  split; [exact (Hcaller 2%nat referer_headers eq_refl)|].
  split; [exact (proj1 (Hdefault [] eq_refl))|].
  assert (Hauth : default_has_auth stale_default).
  { eexists _, _. split; reflexivity. }
  destruct (proj2 (Hlater stale_default "videos/e2" (JStr "e2") None Hauth)
                  JNull [("Authorization", JStr "Bearer t0ken")]
                  eq_refl eq_refl eq_refl)
    as (req & Hlog & Hsent).
  exists req. split; [exact Hlog | exact Hsent].
Defined.

Lemma get_video_info_example :
  _get_video_info (IE := failing_ie) (JObj no_subtitles) (JStr "e1") []
                  (logged_in (JStr "t0ken") [])
  = (Raise (KeyError "subtitles"), logged_in (JStr "t0ken") [])
  /\ exists info,
       _get_video_info (IE := failing_ie) (JObj no_streams) (JStr "s1")
                       known_base (logged_in (JStr "t0ken") [])
       = (Ok info, logged_in (JStr "t0ken") [])
       /\ vi_formats info = [].
Proof.
  split.
  - apply (proj2 (proj1 (get_video_info_partial (IE := failing_ie)
                           no_subtitles (JStr "e1") []
                           (logged_in (JStr "t0ken") []))
                        eq_refl)
                 []).
    reflexivity.
  - apply (proj2 (get_video_info_partial (IE := failing_ie)
                    no_streams (JStr "s1") known_base
                    (logged_in (JStr "t0ken") []))
                 eq_refl eq_refl (serie_of two_seasons) (JNum 1));
      reflexivity.
Defined.

(** * Further properties *)

Lemma foldR_app {A B} (f : B -> A -> pyres B) (l1 l2 : list A) (acc : B) :
  foldR f (l1 ++ l2) acc = bindR (foldR f l1 acc) (foldR f l2).
Proof.
  revert acc. induction l1 as [|x l1 IH]; intros acc; simpl; [done|].
  destruct (f acc x); simpl; [apply IH | done].
Qed.

Lemma for_first_app {A B} (f : A -> pyres (option B)) (l1 l2 : list A) :
  for_first f (l1 ++ l2)
  = bindR (for_first f l1) (fun r =>
      match r with
      | Some b => Ok (Some b)
      | None => for_first f l2
      end).
Proof.
  induction l1 as [|x l1 IH]; simpl; [done|].
  destruct (f x) as [[b|]|e]; simpl; [done | apply IH | done].
Qed.

Lemma py_join_non_string (sep : string) (items : list json) :
  existsb (fun v => negb (is_str v)) items = true ->
  py_join sep items = Raise TypeError.
Proof.
  induction items as [|v items IH]; [done|].
  intros Hex. destruct v as [| | |s| |]; try done.
  simpl in Hex. specialize (IH Hex).
  destruct items as [|w items]; [done|].
  change (py_join sep (JStr s :: w :: items))
    with (bindR (py_join sep (w :: items))
                (fun t => Ok (s +:+ sep +:+ t))).
  by rewrite IH.
Qed.

Lemma py_eq_str (x : json) (s : string) :
  py_eq x (JStr s) = true <-> x = JStr s.
Proof.
  destruct x; simpl; try (split; [done | congruence]).
  rewrite String.eqb_eq. split; congruence.
Qed.

Section MoreErrors.
Context `{IE : InfoExtractor}.

(** X1.  When [error.message] is a non-empty string, the error-unwrap step
    raises an expected [ExtractorError] whose text is the extractor's name,
    [" said: "] and the message. *)
Theorem handle_errors_string (r e : dict) (message : string) :
  dict_get r "error" = Some (JObj e) ->
  dict_get e "message" = Some (JStr message) ->
  message <> "" ->
  _handle_errors (JObj r)
  = Raise (ExtractorError (IE_NAME +:+ " said: " +:+ message) true).
Proof.
  intros Herr Hmsg Hne. unfold _handle_errors. simpl.
  rewrite Herr. simpl. rewrite Hmsg. cbn [default from_option id].
  by rewrite truthy_str.
Qed.

(** X2.  [_handle_errors] lets an envelope pass exactly when the envelope
    is an object whose [error] is absent, or is an object whose [message]
    is absent or counts as false. *)
Theorem handle_errors_accepts (envelope : json) :
  _handle_errors envelope = Ok tt <->
  exists r,
    envelope = JObj r
    /\ match dict_get r "error" with
       | None => True
       | Some (JObj e) => truthy (default JNull (dict_get e "message")) = false
       | Some _ => False
       end.
Proof.
  unfold _handle_errors. split.
  - destruct envelope as [| | | | |r]; try done. intros Hok. exists r.
    split; [done|]. simpl in Hok.
    destruct (dict_get r "error") as [[| | | | |e]|]; try done.
    simpl in Hok.
    destruct (truthy (default JNull (dict_get e "message"))); [|done].
    destruct (default JNull (dict_get e "message")); try done.
    by destruct (py_join _ _).
  - intros (r & -> & Hshape). simpl.
    destruct (dict_get r "error") as [[| | | | |e]|]; try done.
    simpl. by rewrite Hshape.
Qed.

(** X3.  An envelope that is not an object, or whose [error] is there
    but is not an object (null included), makes [_handle_errors] raise
    [AttributeError]: the value has no [get]. *)
Theorem handle_errors_malformed (envelope : json) :
  (is_obj envelope = false
   \/ exists r v, envelope = JObj r
                  /\ dict_get r "error" = Some v
                  /\ is_obj v = false) ->
  _handle_errors envelope = Raise (AttributeError "get").
Proof.
  intros [Hno|(r & v & -> & Herr & Hno)]; unfold _handle_errors.
  - by destruct envelope.
  - simpl. rewrite Herr. by destruct v.
Qed.

(** X4.  When [error.message] is a mapping with a value that is not a
    string, the join fails: [_handle_errors] raises [TypeError] and the
    catalogue's message is lost. *)
Theorem handle_errors_mapping_non_string (r e m : dict) :
  dict_get r "error" = Some (JObj e) ->
  dict_get e "message" = Some (JObj m) ->
  existsb (fun v => negb (is_str v)) (dict_values m) = true ->
  _handle_errors (JObj r) = Raise TypeError.
Proof.
  intros Herr Hmsg Hex. unfold _handle_errors. simpl.
  rewrite Herr. simpl. rewrite Hmsg. cbn [default from_option id].
  assert (Htrue : truthy (JObj m) = true) by (by destruct m).
  rewrite Htrue. by rewrite py_join_non_string.
Qed.

End MoreErrors.

Section MorePure.
Context `{IE : InfoExtractor}.

(** ** Season numbers, continued *)

Lemma find_no_match (video_id : json) (seasons : list json) :
  forallb (fun season => negb (contains_episode video_id season)) seasons
  = true ->
  List.find (contains_episode video_id) seasons = None.
Proof.
  induction seasons as [|season seasons IH]; [done|]. simpl.
  intros Hall. apply andb_true_iff in Hall as [Hs Hrest].
  apply negb_true_iff in Hs. rewrite Hs. by apply IH.
Qed.

(** On a SeriesInfo [_get_season_number] is the first-match search. *)
Lemma get_season_number_scan (serie_info video_id : json) :
  is_serie serie_info = true ->
  _get_season_number serie_info video_id = Ok (season_of serie_info video_id).
Proof.
  intros Hwf. unfold is_serie in Hwf. unfold _get_season_number, season_of.
  destruct (serie_seasons serie_info) as [seasons|] eqn:Hs; [|done].
  destruct serie_info as [| | | | |d]; try done.
  cbn [serie_seasons] in Hs. cbn [py_getitem].
  destruct (dict_get d "seasons") as [s|]; [|done].
  cbn [mbind option_bind] in Hs. cbn [bindR].
  rewrite (listing_get s seasons Hs). cbn [bindR py_iter].
  rewrite scan_seasons_loop by done. cbn [bindR].
  change (default [] (Some seasons)) with seasons.
  by destruct (List.find _ seasons).
Qed.

Lemma scan_season_body (season video_id : json) :
  is_season season = true ->
  bindR (py_get season "name" JNull) (fun season_number =>
  bindR (py_getitem season "videos") (fun v =>
  bindR (py_get v "data" (JArr [])) (fun vd =>
  bindR (py_iter vd) (fun episodes =>
  for_first (fun episode =>
     bindR (py_get episode "id" JNull) (fun id =>
     Ok (if py_eq id video_id then Some season_number else None)))
     episodes))))
  = Ok (if contains_episode video_id season
        then Some (field season "name") else None).
Proof.
  intros Hseason. unfold is_season in Hseason. unfold contains_episode.
  destruct (season_episodes season) as [episodes|] eqn:He; [|done].
  destruct season as [| | | | |sd]; try done.
  cbn [season_episodes] in He.
  destruct (dict_get sd "videos") as [v|] eqn:Hv; [|done].
  cbn [mbind option_bind] in He.
  cbn [py_get py_getitem bindR]. rewrite Hv. cbn [bindR].
  rewrite (listing_get v episodes He). cbn [bindR py_iter].
  by rewrite find_episode_loop.
Qed.

(** X5.  The scan stops at the first season that contains the id: when
    the seasons before it are well formed and do not contain the id,
    [_get_season_number] returns that season's name whatever follows it
    in the list, well formed or not. *)
Theorem get_season_number_stops_at_match (d : dict)
    (sobj video_id season : json) (before after : list json) :
  dict_get d "seasons" = Some sobj ->
  listing sobj = Some (before ++ season :: after) ->
  forallb is_season before = true ->
  forallb (fun s => negb (contains_episode video_id s)) before = true ->
  is_season season = true ->
  contains_episode video_id season = true ->
  _get_season_number (JObj d) video_id = Ok (field season "name").
Proof.
  intros Hd Hlist Hbefore Hnone Hseason Hmatch.
  unfold _get_season_number. cbn [py_getitem]. rewrite Hd. cbn [bindR].
  rewrite (listing_get sobj _ Hlist). cbn [bindR py_iter].
  rewrite for_first_app, scan_seasons_loop by done.
  rewrite (find_no_match video_id before Hnone).
  cbn [bindR fmap option_fmap option_map for_first].
  rewrite scan_season_body by done. by rewrite Hmatch.
Qed.

(** X6.  Missing keys on the way of the scan raise [KeyError]: a
    SeriesInfo without [seasons] at once, a season without [videos] when
    the scan reaches it, that is when no season before it contains the
    id. *)
Theorem get_season_number_missing_key (d : dict) (video_id : json) :
  (dict_get d "seasons" = None ->
   _get_season_number (JObj d) video_id = Raise (KeyError "seasons"))
  /\ (forall sobj before sd after,
        dict_get d "seasons" = Some sobj ->
        listing sobj = Some (before ++ JObj sd :: after) ->
        forallb is_season before = true ->
        forallb (fun s => negb (contains_episode video_id s)) before = true ->
        dict_get sd "videos" = None ->
        _get_season_number (JObj d) video_id = Raise (KeyError "videos")).
Proof.
  split.
  - intros Hd. unfold _get_season_number. cbn [py_getitem]. by rewrite Hd.
  - intros sobj before sd after Hd Hlist Hbefore Hnone Hv.
    unfold _get_season_number. cbn [py_getitem]. rewrite Hd. cbn [bindR].
    rewrite (listing_get sobj _ Hlist). cbn [bindR py_iter].
    rewrite for_first_app, scan_seasons_loop by done.
    rewrite (find_no_match video_id before Hnone).
    cbn [bindR fmap option_fmap option_map for_first py_get py_getitem].
    by rewrite Hv.
Qed.

(** In a series whose episode ids are strings, all different, the first
    season that contains an episode's id is the season that lists it. *)
Lemma find_enclosing_season (seasons : list json) (episode name : json) :
  forallb is_season seasons = true ->
  Forall (fun id => is_str id = true) (episode_ids seasons) ->
  NoDup (episode_ids seasons) ->
  In (episode, name) (episodes_in_order seasons) ->
  (fun season => field season "name")
    <$> List.find (contains_episode (field episode "id")) seasons
  = Some name.
Proof.
  unfold episode_ids.
  induction seasons as [|season seasons IH]; [done|].
  intros Hwf Hstr Hnodup Hin.
  simpl in Hwf. apply andb_true_iff in Hwf as [Hseason Hrest].
  cbn [episodes_in_order flat_map] in Hstr, Hnodup, Hin.
  rewrite map_app in Hstr, Hnodup.
  apply Forall_app in Hstr as [Hstr1 Hstr2].
  apply NoDup_app in Hnodup as (Hnd1 & Hdisj & Hnd2).
  rewrite map_map in Hstr1, Hdisj. cbn [fst] in Hstr1, Hdisj.
  cbn [List.find]. unfold contains_episode at 1.
  apply in_app_or in Hin as [Hhere|Hlater].
  - apply in_map_iff in Hhere as (e & [= -> <-] & He).
    assert (Hex : existsb (fun e' => py_eq (field e' "id") (field episode "id"))
                          (default [] (season_episodes season)) = true).
    { apply existsb_exists. exists episode. split; [done|].
      assert (Hs : is_str (field episode "id") = true).
      { rewrite Forall_forall in Hstr1. apply Hstr1.
        apply list_elem_of_In, in_map_iff. by exists episode. }
      destruct (field episode "id"); try done. apply py_eq_str. done. }
    by rewrite Hex.
  - assert (Hid : In (field episode "id")
                     (map (fun en : json * json => field (fst en) "id")
                          (episodes_in_order seasons))).
    { apply in_map_iff. by exists (episode, name). }
    assert (Hs : is_str (field episode "id") = true).
    { rewrite Forall_forall in Hstr2. apply Hstr2.
      by apply list_elem_of_In. }
    destruct (existsb _ (default [] (season_episodes season))) eqn:Hex.
    + exfalso. apply existsb_exists in Hex as (e' & He' & Heq).
      destruct (field episode "id") as [| | |i| |] eqn:Hi; try done.
      apply py_eq_str in Heq.
      apply (Hdisj (JStr i)).
      * apply list_elem_of_In, in_map_iff. by exists e'.
      * by apply list_elem_of_In.
    + by apply IH.
Qed.

(** X7.  In a SeriesInfo whose episode ids are strings, all different,
    [_get_season_number] gives for every listed episode the name of the
    season that lists it: the standalone lookup and the traversal context
    of series mode agree. *)
Theorem get_season_number_enclosing (serie_info : json)
    (seasons : list json) (episode name : json) :
  serie_seasons serie_info = Some seasons ->
  forallb is_season seasons = true ->
  Forall (fun id => is_str id = true) (episode_ids seasons) ->
  NoDup (episode_ids seasons) ->
  In (episode, name) (episodes_in_order seasons) ->
  _get_season_number serie_info (field episode "id") = Ok name.
Proof.
  intros Hs Hwf Hstr Hnodup Hin.
  rewrite get_season_number_scan by (unfold is_serie; by rewrite Hs).
  unfold season_of. rewrite Hs. change (default [] (Some seasons)) with seasons.
  pose proof (find_enclosing_season seasons episode name Hwf Hstr Hnodup Hin)
    as Hfind.
  destruct (List.find _ seasons); simpl in Hfind; congruence.
Qed.

(** ** Subtitles and formats, continued *)

(** X8.  A subtitle descriptor whose [lang] is missing or is not a string
    makes [_get_subtitles] raise [AttributeError] when the loop reaches
    it; no map is returned, whatever the other descriptors are. *)
Theorem get_subtitles_bad_lang (before after : list json)
    (bad video_id : json) :
  forallb is_subtitle before = true ->
  is_obj bad = true ->
  is_subtitle bad = false ->
  _get_subtitles (JArr (before ++ bad :: after)) video_id
  = Raise (AttributeError "lower").
Proof.
  intros Hbefore Hobj Hbad. unfold _get_subtitles. cbn [py_iter bindR].
  rewrite foldR_app.
  destruct (get_subtitles_loop before ∅ Hbefore) as (m & -> & _).
  cbn [bindR foldR].
  destruct bad as [| | | | |d]; try done. cbn [py_get bindR].
  simpl in Hbad.
  by destruct (dict_get d "lang") as [[| | | | |]|].
Qed.

(** X9.  On a list of stream descriptors [_get_formats] returns, sorted,
    the formats of the HLS and DASH descriptors in the descriptors' order:
    each such descriptor contributes what its manifest collaborator
    returns, once, and every other descriptor contributes nothing. *)
Theorem get_formats_collects (streams : list json) (video_id : json) :
  forallb is_obj streams = true ->
  _get_formats (JArr streams) video_id
  = Ok (_sort_formats (flat_map (formats_of video_id) streams)).
Proof.
  intros Hall. unfold _get_formats. cbn [py_iter bindR].
  match goal with
  | |- context [foldR ?f streams []] =>
      assert (Hloop : forall acc,
                 foldR f streams acc
                 = Ok (acc ++ flat_map (formats_of video_id) streams))
  end.
  { induction streams as [|stream streams IH]; intros acc.
    - by rewrite app_nil_r.
    - simpl in Hall. apply andb_true_iff in Hall as [Hobj Hrest].
      cbn [foldR flat_map]. rewrite !(py_get_obj stream) by done.
      cbn [bindR]. unfold formats_of at 1.
      destruct (py_eq (field stream "type") (JStr "HLS")).
      + cbn [bindR]. rewrite IH by done. by rewrite app_assoc.
      + destruct (py_eq (field stream "type") (JStr "DASH")).
        * cbn [bindR]. rewrite IH by done. by rewrite app_assoc.
        * cbn [bindR]. by rewrite IH. }
  by rewrite Hloop.
Qed.

End MorePure.

Lemma dict_set_set (d : dict) (k : string) (v w : json) :
  dict_set (dict_set d k v) k w = dict_set d k w.
Proof.
  induction d as [|[k' v'] d IH]; simpl.
  - by rewrite String.eqb_refl.
  - destruct (String.eqb k' k) eqn:E; simpl; rewrite E; [done|].
    by rewrite IH.
Qed.

Lemma inject_auth_log (h : loc) (tok : json) (s : state) :
  log (inject_auth h tok s) = log s.
Proof. unfold inject_auth. destruct tok; try done. by destruct (truthy _). Qed.

Lemma inject_auth_same_token (h : loc) (tok : json) (s : state) :
  _auth_token (inject_auth h tok s) = _auth_token s.
Proof. unfold inject_auth. destruct tok; try done. by destruct (truthy _). Qed.

Lemma inject_auth_length (h : loc) (tok : json) (s : state) :
  length (heap (inject_auth h tok s)) = length (heap s).
Proof.
  unfold inject_auth. destruct tok; try done.
  destruct (truthy _); [|done]. cbn [heap]. apply length_alter.
Qed.

Lemma inject_auth_other (h l : loc) (tok : json) (s : state) :
  l <> h -> heap (inject_auth h tok s) !! l = heap s !! l.
Proof.
  intros Hne. unfold inject_auth. destruct tok; try done.
  destruct (truthy _); [|done]. cbn [heap].
  by rewrite list_lookup_alter_ne.
Qed.

Lemma inject_auth_here (h : loc) (t : string) (s : state) (hd : dict) :
  t <> "" ->
  heap s !! h = Some hd ->
  heap (inject_auth h (JStr t) s) !! h
  = Some (dict_set hd "Authorization" (JStr ("Bearer " +:+ t))).
Proof.
  intros Hne Hhd. rewrite inject_auth_token by done. cbn [heap].
  by rewrite list_lookup_alter_eq, Hhd.
Qed.

Section MoreCalls.
Context `{IE : InfoExtractor}.

(** ** The catalogue call, continued *)

(** A call that the catalogue answers with an accepted envelope. *)
Lemma call_api_ok (path : string) (video_id : json) (headers : option loc)
    (note : option string) (s : state) (t : string) (envelope data : json) :
  _auth_token s = Some (JStr t) ->
  (forall r, req_url r = _API_BASE +:+ path ->
             _download_json r = Ok envelope) ->
  _handle_errors envelope = Ok tt ->
  py_getitem envelope "data" = Ok data ->
  let h := default _call_api_headers headers in
  let s1 := inject_auth h (JStr t) s in
  _call_api path video_id headers note s
  = (Ok data,
     record (outgoing path video_id note (default [] (heap s1 !! h))) s1).
Proof.
  intros Htok Hserver Hok Hdata. cbn zeta.
  rewrite (call_api_exec path video_id headers note s (JStr t) Htok)
    by (by right).
  cbn zeta. rewrite Hserver by done. cbn [bindR]. by rewrite Hok, Hdata.
Qed.

(** X10.  Whatever its outcome, [_call_api] leaves the session token as
    it was, allocates no mapping, writes to no mapping other than the
    headers it was given (the default one when none was given), and makes
    at most one request, to the API base followed by the path. *)
Theorem call_api_frame (path : string) (video_id : json)
    (headers : option loc) (note : option string) (s : state) :
  let s' := snd (_call_api path video_id headers note s) in
  _auth_token s' = _auth_token s
  /\ length (heap s') = length (heap s)
  /\ (forall l, l <> default _call_api_headers headers ->
                heap s' !! l = heap s !! l)
  /\ (log s' = log s
      \/ exists req, log s' = log s ++ [req]
                     /\ req_url req = _API_BASE +:+ path).
Proof.
  cbn zeta.
  destruct (call_api_state path video_id headers note s)
    as [->|(tok & _ & _ & Hrun)].
  - repeat split; try done. by left.
  - cbn zeta in Hrun. rewrite Hrun. cbn [record _auth_token heap log].
    split; [apply inject_auth_same_token|].
    split; [apply inject_auth_length|].
    split; [intros l Hl; by apply inject_auth_other|].
    right. eexists. rewrite inject_auth_log. by split.
Qed.

(** X11.  Before [_real_initialize] has stored a token, [_call_api] raises
    [AttributeError]; with a token that counts as true but is not a
    string it raises [TypeError].  In both cases nothing is sent and the
    state is untouched. *)
Theorem call_api_token_errors (path : string) (video_id : json)
    (headers : option loc) (note : option string) (s : state) :
  (_auth_token s = None ->
   _call_api path video_id headers note s
   = (Raise (AttributeError "_auth_token"), s))
  /\ (forall tok,
        _auth_token s = Some tok ->
        truthy tok = true ->
        is_str tok = false ->
        _call_api path video_id headers note s = (Raise TypeError, s)).
Proof.
  unfold _call_api, bindM, get_auth_token. split.
  - by intros ->.
  - intros tok -> Htrue Hstr. cbn zeta. rewrite Htrue.
    unfold liftR. by destruct tok.
Qed.

(** X12.  When [_download_json] fails, [_call_api] raises that same
    error; the request was made and the Authorization entry written
    before it stays in the caller's mapping. *)
Theorem call_api_download_failure (path : string) (video_id : json)
    (h : loc) (note : option string) (s : state) (t : string) (hd : dict)
    (e : pyerr) :
  _auth_token s = Some (JStr t) ->
  t <> "" ->
  heap s !! h = Some hd ->
  (forall r, req_url r = _API_BASE +:+ path -> _download_json r = Raise e) ->
  exists s',
    _call_api path video_id (Some h) note s = (Raise e, s')
    /\ heap s' !! h
       = Some (dict_set hd "Authorization" (JStr ("Bearer " +:+ t)))
    /\ exists req, log s' = log s ++ [req]
                   /\ req_url req = _API_BASE +:+ path.
Proof.
  intros Htok Hne Hhd Hserver.
  rewrite (call_api_exec path video_id (Some h) note s (JStr t) Htok)
    by (by right).
  cbn zeta. change (default _call_api_headers (Some h)) with h.
  rewrite Hserver by done. eexists. split; [reflexivity|].
  cbn [record heap log]. split; [by apply inject_auth_here|].
  eexists. rewrite inject_auth_log. by split.
Qed.

(** X13.  An accepted envelope without a [data] key makes [_call_api]
    raise [KeyError]; an envelope whose [data] is null is returned as
    null. *)
Theorem call_api_missing_data (path : string) (video_id : json)
    (headers : option loc) (note : option string) (s : state) (t : string)
    (r : dict) :
  _auth_token s = Some (JStr t) ->
  (forall q, req_url q = _API_BASE +:+ path ->
             _download_json q = Ok (JObj r)) ->
  _handle_errors (JObj r) = Ok tt ->
  (dict_get r "data" = None ->
   fst (_call_api path video_id headers note s) = Raise (KeyError "data"))
  /\ (dict_get r "data" = Some JNull ->
      fst (_call_api path video_id headers note s) = Ok JNull).
Proof.
  intros Htok Hserver Hok.
  rewrite (call_api_exec path video_id headers note s (JStr t) Htok)
    by (by right).
  cbn zeta. rewrite Hserver by done. cbn [fst bindR]. rewrite Hok.
  cbn [bindR py_getitem]. split; by intros ->.
Qed.

(** X14.  Two calls in a row on the same headers mapping with the same
    token: the second call leaves the mapping as the first left it (the
    Authorization entry is set again, not added again) and sends the same
    headers. *)
Theorem call_api_twice (path1 path2 : string) (video_id1 video_id2 : json)
    (h : loc) (note1 note2 : option string) (s : state) (t : string)
    (hd : dict) :
  _auth_token s = Some (JStr t) ->
  t <> "" ->
  heap s !! h = Some hd ->
  let s1 := snd (_call_api path1 video_id1 (Some h) note1 s) in
  let s2 := snd (_call_api path2 video_id2 (Some h) note2 s1) in
  heap s2 = heap s1
  /\ exists req1 req2,
       log s2 = log s ++ [req1; req2]
       /\ req_headers req1
          = dict_set hd "Authorization" (JStr ("Bearer " +:+ t))
       /\ req_headers req2 = req_headers req1.
Proof.
  intros Htok Hne Hhd. cbn zeta.
  rewrite (call_api_exec path1 video_id1 (Some h) note1 s (JStr t) Htok)
    by (by right).
  cbn zeta. change (default _call_api_headers (Some h)) with h. cbn [snd].
  set (s1 := record _ _).
  assert (Htok1 : _auth_token s1 = Some (JStr t)).
  { unfold s1. cbn [record _auth_token]. by rewrite inject_auth_same_token. }
  assert (Hhd1 : heap s1 !! h
                 = Some (dict_set hd "Authorization"
                                  (JStr ("Bearer " +:+ t)))).
  { unfold s1. cbn [record heap]. by apply inject_auth_here. }
  rewrite (call_api_exec path2 video_id2 (Some h) note2 s1 (JStr t) Htok1)
    by (by right).
  cbn zeta. change (default _call_api_headers (Some h)) with h.
  cbn [snd record heap log].
  assert (Hheap : heap (inject_auth h (JStr t) s1) = heap s1).
  { rewrite inject_auth_token by done. cbn [heap].
    apply list_eq. intros l. destruct (decide (h = l)) as [<-|Hl].
    - rewrite list_lookup_alter_eq, Hhd1. cbn. by rewrite dict_set_set.
    - by rewrite list_lookup_alter_ne. }
  split; [exact Hheap|].
  eexists _, _. rewrite inject_auth_log.
  split.
  - unfold s1 at 1. cbn [record log]. rewrite inject_auth_log.
    rewrite <- app_assoc. reflexivity.
  - cbn [req_headers outgoing]. rewrite Hheap, Hhd1.
    rewrite (inject_auth_here h t s hd Hne Hhd). by split.
Qed.

(** ** Initialisation, continued *)

(** The request [_real_initialize] makes. *)
Lemma real_initialize_run (s : state) (email : string)
    (password : option string) (envelope token : json) :
  _get_login_info = (Some email, password) ->
  (forall r, req_url r = _API_BASE +:+ "authenticate" ->
             _download_json r = Ok envelope) ->
  _handle_errors envelope = Ok tt ->
  py_getitem envelope "token" = Ok token ->
  _real_initialize s
  = (Ok tt,
     {| _auth_token := Some token;
        heap := heap s;
        log := log s
               ++ [{| req_url := _API_BASE +:+ "authenticate";
                      req_video_id := JNull;
                      req_headers := [];
                      req_note := None;
                      req_data :=
                        Some (urlencode_postdata
                                [("email", Some email);
                                 ("password", password)]) |}] |}).
Proof.
  intros Hlogin Hserver Hok Htoken. unfold _real_initialize.
  rewrite Hlogin. unfold bindM, retM, download, liftR, set_auth_token.
  rewrite Hserver by done. by rewrite Hok, Htoken.
Qed.

(** X15.  With credentials and an accepted answer that holds a token,
    [_real_initialize] succeeds, stores that token and has made one
    request: a POST of the encoded email and password to the authenticate
    path, with no headers.  The headers mappings are untouched. *)
Theorem real_initialize_success (s : state) (email : string)
    (password : option string) (envelope token : json) :
  _get_login_info = (Some email, password) ->
  (forall r, req_url r = _API_BASE +:+ "authenticate" ->
             _download_json r = Ok envelope) ->
  _handle_errors envelope = Ok tt ->
  py_getitem envelope "token" = Ok token ->
  let s' := snd (_real_initialize s) in
  fst (_real_initialize s) = Ok tt
  /\ _auth_token s' = Some token
  /\ heap s' = heap s
  /\ exists req,
       log s' = log s ++ [req]
       /\ req_url req = _API_BASE +:+ "authenticate"
       /\ req_headers req = []
       /\ req_data req
          = Some (urlencode_postdata
                    [("email", Some email); ("password", password)]).
Proof.
  intros Hlogin Hserver Hok Htoken. cbn zeta.
  rewrite (real_initialize_run s email password envelope token) by done.
  cbn. repeat split. eexists. by repeat split.
Qed.

(** X16.  When the catalogue rejects the credentials (the envelope carries
    an error) or answers without a [token] key, [_real_initialize] raises
    and stores nothing: the session token is what it was before. *)
Theorem real_initialize_rejected (s : state) (email : string)
    (password : option string) (envelope : json) :
  _get_login_info = (Some email, password) ->
  (forall r, req_url r = _API_BASE +:+ "authenticate" ->
             _download_json r = Ok envelope) ->
  (carries_error envelope = true ->
   exists e, fst (_real_initialize s) = Raise e
             /\ _auth_token (snd (_real_initialize s)) = _auth_token s)
  /\ (forall r, envelope = JObj r ->
                _handle_errors envelope = Ok tt ->
                dict_get r "token" = None ->
                fst (_real_initialize s) = Raise (KeyError "token")
                /\ _auth_token (snd (_real_initialize s)) = _auth_token s).
Proof.
  intros Hlogin Hserver. unfold _real_initialize.
  rewrite Hlogin. unfold bindM, retM, download, liftR, set_auth_token.
  rewrite Hserver by done. split.
  - intros Hc. destruct (handle_errors_raises envelope Hc) as [e ->].
    by exists e.
  - intros r -> -> Hnone. cbn [py_getitem]. by rewrite Hnone.
Qed.

(** X17.  Initialisation followed by a catalogue call: the token that the
    authenticate answer held is the one the call sends, as Bearer, in the
    Authorization entry; the two requests are the only ones made. *)
Theorem initialize_then_call (s : state) (email : string)
    (password : option string) (envelope : json) (t : string)
    (path : string) (video_id : json) (h : loc) (note : option string)
    (hd : dict) :
  _get_login_info = (Some email, password) ->
  (forall r, req_url r = _API_BASE +:+ "authenticate" ->
             _download_json r = Ok envelope) ->
  _handle_errors envelope = Ok tt ->
  py_getitem envelope "token" = Ok (JStr t) ->
  t <> "" ->
  heap s !! h = Some hd ->
  let s1 := snd (_real_initialize s) in
  let s2 := snd (_call_api path video_id (Some h) note s1) in
  exists login req,
    log s2 = log s ++ [login; req]
    /\ req_url login = _API_BASE +:+ "authenticate"
    /\ req_url req = _API_BASE +:+ path
    /\ dict_get (req_headers req) "Authorization"
       = Some (JStr ("Bearer " +:+ t)).
Proof.
  intros Hlogin Hserver Hok Htoken Hne Hhd. cbn zeta.
  rewrite (real_initialize_run s email password envelope (JStr t))
    by done.
  cbn [snd]. set (s1 := {| _auth_token := _; heap := _; log := _ |}).
  rewrite (call_api_exec path video_id (Some h) note s1 (JStr t))
    by (done || by right).
  cbn zeta. change (default _call_api_headers (Some h)) with h.
  cbn [snd record log]. rewrite inject_auth_log.
  rewrite (inject_auth_here h t s1 hd Hne Hhd).
  eexists _, _. split.
  - unfold s1. cbn [log]. rewrite <- app_assoc. reflexivity.
  - cbn. repeat split; try done. apply dict_get_set_eq.
Qed.

End MoreCalls.

Section MoreItems.
Context `{IE : InfoExtractor}.

(** ** Building one item, continued *)

Lemma get_serie_info_ok (serie_id : string) (headers : option loc)
    (s : state) (t : string) (envelope data : json) :
  _auth_token s = Some (JStr t) ->
  (forall r, req_url r = _API_BASE +:+ "serie/" +:+ serie_id ->
             _download_json r = Ok envelope) ->
  _handle_errors envelope = Ok tt ->
  py_getitem envelope "data" = Ok data ->
  let h := default _get_serie_info_headers headers in
  let s1 := inject_auth h (JStr t) s in
  _get_serie_info (JStr serie_id) headers s
  = (Ok data,
     record (outgoing ("serie/" +:+ serie_id) (JStr serie_id)
                      (Some "Downloading Serie JSON metadata")
                      (default [] (heap s1 !! h))) s1).
Proof.
  intros Htok Hserver Hok Hdata. cbn zeta.
  unfold _get_serie_info. cbn zeta. rewrite bindM_liftR. cbn [py_concat].
  by rewrite (call_api_ok _ _ _ _ s t envelope data Htok Hserver Hok Hdata).
Qed.

(** X18.  [_get_serie_info] called without [headers] passes its own
    default mapping on to [_call_api]: the Authorization entry is written
    into that mapping and stays there, while the default mapping of
    [_call_api] is not touched.  An id that is not a string raises
    [TypeError] before anything is sent. *)
Theorem get_serie_info_default_mapping (s : state) (t : string) (hd : dict) :
  _auth_token s = Some (JStr t) ->
  t <> "" ->
  heap s !! _get_serie_info_headers = Some hd ->
  (forall serie_id,
     let s' := snd (_get_serie_info (JStr serie_id) None s) in
     heap s' !! _get_serie_info_headers
     = Some (dict_set hd "Authorization" (JStr ("Bearer " +:+ t)))
     /\ heap s' !! _call_api_headers = heap s !! _call_api_headers
     /\ exists req,
          log s' = log s ++ [req]
          /\ req_url req = _API_BASE +:+ "serie/" +:+ serie_id
          /\ req_headers req
             = dict_set hd "Authorization" (JStr ("Bearer " +:+ t)))
  /\ (forall serie_id headers,
        is_str serie_id = false ->
        _get_serie_info serie_id headers s = (Raise TypeError, s)).
Proof.
  intros Htok Hne Hhd. split.
  - intros serie_id. cbn zeta.
    unfold _get_serie_info. cbn zeta. rewrite bindM_liftR. cbn [py_concat].
    rewrite (call_api_exec _ _ _ _ s (JStr t) Htok) by (by right).
    cbn zeta.
    change (default _call_api_headers
                    (Some (default _get_serie_info_headers None)))
      with _get_serie_info_headers.
    cbn [snd record heap log].
    rewrite (inject_auth_here _ t s hd Hne Hhd).
    split; [done|]. split; [by apply inject_auth_other|].
    eexists. rewrite inject_auth_log. by repeat split.
  - intros serie_id headers Hstr. unfold _get_serie_info. cbn zeta.
    rewrite bindM_liftR. by destruct serie_id.
Qed.

(** [_get_video_info] when the context knows neither the series nor the
    season: one SeriesInfo fetch through the default mapping of
    [_get_serie_info], then the scan. *)
Lemma get_video_info_fetch (d : dict) (video_id : json) (base : dict)
    (s : state) (t serie_id : string) (envelope serie_info : json) :
  is_episode (JObj d) = true ->
  truthy (default JNull (dict_get base "serie_info")) = false ->
  truthy (default JNull (dict_get base "season_number")) = false ->
  dict_get d "serie" = Some (JStr serie_id) ->
  _auth_token s = Some (JStr t) ->
  (forall r, req_url r = _API_BASE +:+ "serie/" +:+ serie_id ->
             _download_json r = Ok envelope) ->
  _handle_errors envelope = Ok tt ->
  py_getitem envelope "data" = Ok serie_info ->
  is_serie serie_info = true ->
  let s1 := inject_auth _get_serie_info_headers (JStr t) s in
  exists info,
    _get_video_info (JObj d) video_id base s
    = (Ok info,
       record (outgoing ("serie/" +:+ serie_id) (JStr serie_id)
                        (Some "Downloading Serie JSON metadata")
                        (default [] (heap s1 !! _get_serie_info_headers)))
              s1)
    /\ vi_id info = field (JObj d) "id"
    /\ vi_season_number info
       = int_or_none (season_of serie_info (field (JObj d) "id"))
    /\ vi_release_year info = int_or_none (field serie_info "year")
    /\ vi_episode_number info = int_or_none (field (JObj d) "episode").
Proof.
  intros Hep Hnosi Hnosn Hserie Htok Hserver Hok Hdata Hwf. cbn zeta.
  pose proof Hep as Hep'.
  unfold is_episode in Hep. apply andb_true_iff in Hep as [Hsubs Hstreams].
  destruct (dict_get d "subtitles") as [sobj|] eqn:Hsobj; [|done].
  cbn [mbind option_bind] in Hsubs.
  destruct (listing sobj) as [subs|] eqn:Hlist; [|done].
  destruct (get_subtitles_total subs (field (JObj d) "id") Hsubs)
    as [subtitles Hsubtitles].
  assert (Hformats : exists formats,
             _get_formats (default (JArr []) (dict_get d "streams"))
                          (field (JObj d) "id") = Ok formats).
  { destruct (dict_get d "streams") as [[| | | |streams|]|]; try done.
    - apply get_formats_total. done.
    - by exists []. }
  destruct Hformats as (formats & Hformats).
  assert (Hobj : is_obj serie_info = true).
  { unfold is_serie in Hwf. by destruct serie_info. }
  pose proof (get_serie_info_ok serie_id None s t envelope serie_info
                Htok Hserver Hok Hdata) as Hfetch.
  cbn zeta in Hfetch.
  change (default _get_serie_info_headers None)
    with _get_serie_info_headers in Hfetch.
  unfold _get_video_info, bindM, liftR, retM.
  cbn [py_get py_getitem]. cbn [field] in Hformats, Hsubtitles.
  rewrite Hformats, Hsobj, (listing_get sobj subs Hlist), Hsubtitles.
  cbn zeta. rewrite Hnosi, Hnosn, Hserie. cbn [default from_option id].
  rewrite Hfetch, (get_season_number_scan serie_info _ Hwf).
  rewrite (py_get_obj serie_info "year") by done.
  eexists. split; [reflexivity|]. by cbn.
Qed.

(** X19.  Standalone resolution of an episode (no traversal context):
    [_get_video_info] fetches the SeriesInfo of the episode's [serie],
    once, and takes the season number from the scan of that SeriesInfo,
    the release year from its [year] and the episode number from the raw
    episode's [episode]. *)
Theorem get_video_info_standalone (d : dict) (video_id : json) (s : state)
    (t serie_id : string) (envelope serie_info : json) :
  is_episode (JObj d) = true ->
  dict_get d "serie" = Some (JStr serie_id) ->
  _auth_token s = Some (JStr t) ->
  (forall r, req_url r = _API_BASE +:+ "serie/" +:+ serie_id ->
             _download_json r = Ok envelope) ->
  _handle_errors envelope = Ok tt ->
  py_getitem envelope "data" = Ok serie_info ->
  is_serie serie_info = true ->
  exists info s',
    _get_video_info (JObj d) video_id [] s = (Ok info, s')
    /\ vi_season_number info
       = int_or_none (season_of serie_info (field (JObj d) "id"))
    /\ vi_release_year info = int_or_none (field serie_info "year")
    /\ vi_episode_number info = int_or_none (field (JObj d) "episode")
    /\ exists req,
         log s' = log s ++ [req]
         /\ req_url req = _API_BASE +:+ "serie/" +:+ serie_id.
Proof.
  intros Hep Hserie Htok Hserver Hok Hdata Hwf.
  destruct (get_video_info_fetch d video_id [] s t serie_id envelope
              serie_info Hep eq_refl eq_refl Hserie Htok Hserver Hok Hdata
              Hwf)
    as (info & Hrun & _ & Hseason & Hyear & Hepisode).
  eexists info, _. split; [exact Hrun|].
  repeat split; try done.
  eexists. cbn [record log]. rewrite inject_auth_log. by split.
Qed.

(** X20.  Standalone resolution needs the episode's [serie]: when the key
    is missing or its value is not a string, [_get_video_info] raises
    [TypeError] while building the path, before any request. *)
Theorem get_video_info_no_serie (d : dict) (video_id : json) (base : dict)
    (s : state) :
  is_episode (JObj d) = true ->
  truthy (default JNull (dict_get base "serie_info")) = false ->
  is_str (field (JObj d) "serie") = false ->
  _get_video_info (JObj d) video_id base s = (Raise TypeError, s).
Proof.
  intros Hep Hnosi Hstr.
  unfold is_episode in Hep. apply andb_true_iff in Hep as [Hsubs Hstreams].
  destruct (dict_get d "subtitles") as [sobj|] eqn:Hsobj; [|done].
  cbn [mbind option_bind] in Hsubs.
  destruct (listing sobj) as [subs|] eqn:Hlist; [|done].
  destruct (get_subtitles_total subs (field (JObj d) "id") Hsubs)
    as [subtitles Hsubtitles].
  assert (Hformats : exists formats,
             _get_formats (default (JArr []) (dict_get d "streams"))
                          (field (JObj d) "id") = Ok formats).
  { destruct (dict_get d "streams") as [[| | | |streams|]|]; try done.
    - apply get_formats_total. done.
    - by exists []. }
  destruct Hformats as (formats & Hformats).
  unfold _get_video_info, bindM, liftR, retM.
  cbn [py_get py_getitem]. cbn [field] in Hformats, Hsubtitles, Hstr.
  rewrite Hformats, Hsobj, (listing_get sobj subs Hlist), Hsubtitles.
  cbn zeta. rewrite Hnosi.
  unfold _get_serie_info, bindM, liftR.
  by destruct (default JNull (dict_get d "serie")).
Qed.

(** X21.  A raw episode whose [streams] is there but cannot be iterated
    (null, a number, a boolean) makes [_get_video_info] raise [TypeError]:
    only a missing key defaults to the empty list. *)
Theorem get_video_info_null_streams (d : dict) (video_id : json)
    (base : dict) (s : state) (streams : json) :
  dict_get d "streams" = Some streams ->
  is_iterable streams = false ->
  _get_video_info (JObj d) video_id base s = (Raise TypeError, s).
Proof.
  intros Hstreams Hiter. unfold _get_video_info, bindM, liftR.
  cbn [py_get]. rewrite Hstreams. cbn [default from_option id].
  unfold _get_formats. by destruct streams.
Qed.

End MoreItems.

Lemma foldM_app {A B} (f : B -> A -> M B) (l1 l2 : list A) (acc : B)
    (s : state) :
  foldM f (l1 ++ l2) acc s = bindM (foldM f l1 acc) (foldM f l2) s.
Proof.
  revert acc s. induction l1 as [|x l1 IH]; intros acc s; [done|].
  cbn [app foldM]. unfold bindM.
  destruct (f acc x s) as [[b|e] s1]; [|done].
  rewrite IH. reflexivity.
Qed.

Lemma bindM_raise {A B} (c : M A) (k : A -> M B) (s s' : state) (e : pyerr) :
  c s = (Raise e, s') -> bindM c k s = (Raise e, s').
Proof. intros Hc. unfold bindM. by rewrite Hc. Qed.

Section MoreExtractors.
Context `{IE : InfoExtractor}.

(** ** Episode mode *)

(** X22.  Episode mode makes two requests, in this order: the episode,
    with the mapping built from the page URL (Referer, then
    Authorization), and the episode's SeriesInfo, through the default
    mapping of [_get_serie_info], so without a Referer of its own.  The
    item's season number comes from the scan of that SeriesInfo. *)
Theorem episode_extract_two_requests (url : string) (s : state) (t : string)
    (hd : dict) (envelope1 envelope2 serie_info : json) (d : dict)
    (serie_id : string) :
  _auth_token s = Some (JStr t) ->
  t <> "" ->
  heap s !! _get_serie_info_headers = Some hd ->
  (forall r, req_url r = _API_BASE +:+ "videos/" +:+ _match_id url ->
             _download_json r = Ok envelope1) ->
  _handle_errors envelope1 = Ok tt ->
  py_getitem envelope1 "data" = Ok (JObj d) ->
  is_episode (JObj d) = true ->
  dict_get d "serie" = Some (JStr serie_id) ->
  (forall r, req_url r = _API_BASE +:+ "serie/" +:+ serie_id ->
             _download_json r = Ok envelope2) ->
  _handle_errors envelope2 = Ok tt ->
  py_getitem envelope2 "data" = Ok serie_info ->
  is_serie serie_info = true ->
  exists info s',
    ContarIE._real_extract url s = (Ok info, s')
    /\ vi_id info = field (JObj d) "id"
    /\ vi_season_number info
       = int_or_none (season_of serie_info (field (JObj d) "id"))
    /\ exists req1 req2,
         log s' = log s ++ [req1; req2]
         /\ req_url req1 = _API_BASE +:+ "videos/" +:+ _match_id url
         /\ req_headers req1
            = [("Referer", JStr url);
               ("Authorization", JStr ("Bearer " +:+ t))]
         /\ req_url req2 = _API_BASE +:+ "serie/" +:+ serie_id
         /\ req_headers req2
            = dict_set hd "Authorization" (JStr ("Bearer " +:+ t)).
Proof.
  intros Htok Hne Hhd Hserver1 Hok1 Hdata1 Hep Hserie Hserver2 Hok2 Hdata2
         Hwf.
  set (h := length (heap s)).
  set (s0 := {| _auth_token := _auth_token s;
                heap := heap s ++ [[("Referer", JStr url)]];
                log := log s |}).
  assert (Hlt : (_get_serie_info_headers < h)%nat).
  { unfold h. by apply lookup_lt_Some in Hhd. }
  pose proof (call_api_ok ("videos/" +:+ _match_id url)
                (JStr (_match_id url)) (Some h) None s0 t envelope1 (JObj d)
                Htok Hserver1 Hok1 Hdata1) as Hcall.
  cbn zeta in Hcall. change (default _call_api_headers (Some h)) with h in Hcall.
  assert (Hh0 : heap s0 !! h = Some [("Referer", JStr url)]).
  { unfold s0, h. cbn [heap]. by apply list_lookup_middle. }
  rewrite (inject_auth_here h t s0 _ Hne Hh0) in Hcall.
  match type of Hcall with _ = (_, ?st) => set (s1 := st) in * end.
  assert (Htok1 : _auth_token s1 = Some (JStr t)).
  { unfold s1. cbn [record _auth_token]. by rewrite inject_auth_same_token. }
  assert (Hhd1 : heap s1 !! _get_serie_info_headers = Some hd).
  { unfold s1. cbn [record heap]. rewrite inject_auth_other by lia.
    unfold s0. cbn [heap]. by rewrite lookup_app_l. }
  destruct (get_video_info_fetch d (JStr (_match_id url)) [] s1 t serie_id
              envelope2 serie_info Hep eq_refl eq_refl Hserie Htok1
              Hserver2 Hok2 Hdata2 Hwf)
    as (info & Hrun & Hid & Hseason & _).
  cbn zeta in Hrun.
  rewrite (inject_auth_here _ t s1 hd Hne Hhd1) in Hrun.
  eexists info, _. split.
  - unfold ContarIE._real_extract. cbn zeta.
    rewrite (bindM_ok _ _ s s0 h) by done.
    rewrite (bindM_ok _ _ s0 s1 (JObj d) Hcall). exact Hrun.
  - split; [exact Hid|]. split; [exact Hseason|].
    eexists _, _. cbn [record log]. rewrite inject_auth_log.
    unfold s1 at 1. cbn [record log]. rewrite inject_auth_log.
    unfold s0 at 1. cbn [log]. rewrite <- app_assoc.
    split; [reflexivity|]. by cbn.
Qed.

(** ** Channel and genre pages *)

Lemma refs_loop_collects (videos : list json) (entries : list url_ref) :
  forallb is_obj videos = true ->
  refs_loop videos entries
  = Ok (entries ++ map serie_ref (List.filter is_serie_entry videos)).
Proof.
  unfold refs_loop. revert entries.
  induction videos as [|video videos IH]; intros entries Hall.
  - by rewrite app_nil_r.
  - simpl in Hall. apply andb_true_iff in Hall as [Hobj Hrest].
    cbn [foldR List.filter]. rewrite !(py_get_obj video) by done.
    cbn [bindR]. unfold is_serie_entry at 1.
    destruct (py_eq (field video "type") (JStr "SERIE")).
    + cbn [bindR map]. rewrite IH by done. by rewrite <- app_assoc.
    + cbn [bindR]. by apply IH.
Qed.

(** X23.  Channel mode fetches the channel info and then the channel's
    series list, and returns a playlist with one lazy reference per listed
    resource whose [type] is SERIE, in the listed order, the others
    skipped; a reference holds the series URL, the [uuid] and the [name].
    The playlist's title and description are the channel's. *)
Theorem channel_extract_refs (url : string) (s : state) (t : string)
    (envelope1 envelope2 channel_info : json) (videos : list json) :
  _auth_token s = Some (JStr t) ->
  (forall r, req_url r = _API_BASE +:+ "channel/info/" +:+ _match_id url ->
             _download_json r = Ok envelope1) ->
  _handle_errors envelope1 = Ok tt ->
  py_getitem envelope1 "data" = Ok channel_info ->
  is_obj channel_info = true ->
  (forall r, req_url r = _API_BASE +:+ "channel/series/" +:+ _match_id url ->
             _download_json r = Ok envelope2) ->
  _handle_errors envelope2 = Ok tt ->
  py_getitem envelope2 "data" = Ok (JArr videos) ->
  forallb is_obj videos = true ->
  exists s',
    ContarChannelIE._real_extract url s
    = (Ok (playlist_of_refs
             (map serie_ref (List.filter is_serie_entry videos))
             (JStr (_match_id url))
             (field channel_info "name")
             (field channel_info "description")),
       s')
    /\ exists req1 req2,
         log s' = log s ++ [req1; req2]
         /\ req_url req1 = _API_BASE +:+ "channel/info/" +:+ _match_id url
         /\ req_url req2
            = _API_BASE +:+ "channel/series/" +:+ _match_id url.
Proof.
  intros Htok Hserver1 Hok1 Hdata1 Hobj Hserver2 Hok2 Hdata2 Hall.
  set (s0 := {| _auth_token := _auth_token s;
                heap := heap s ++ [[("Referer", JStr url)]];
                log := log s |}).
  pose proof (call_api_ok ("channel/info/" +:+ _match_id url)
                (JStr (_match_id url)) (Some (length (heap s)))
                (Some "Downloading Channel Info JSON metadata")
                s0 t envelope1 channel_info Htok Hserver1 Hok1 Hdata1)
    as Hcall1.
  cbn zeta in Hcall1.
  match type of Hcall1 with _ = (_, ?st) => set (s1 := st) in * end.
  assert (Htok1 : _auth_token s1 = Some (JStr t)).
  { unfold s1. cbn [record _auth_token]. by rewrite inject_auth_same_token. }
  set (s2 := {| _auth_token := _auth_token s1;
                heap := heap s1 ++ [[("Referer", JStr url)]];
                log := log s1 |}).
  pose proof (call_api_ok ("channel/series/" +:+ _match_id url)
                (JStr (_match_id url)) (Some (length (heap s1)))
                (Some "Downloading Channel List JSON metadata")
                s2 t envelope2 (JArr videos) Htok1 Hserver2 Hok2 Hdata2)
    as Hcall2.
  cbn zeta in Hcall2.
  match type of Hcall2 with _ = (_, ?st) => set (s3 := st) in * end.
  exists s3. split.
  - unfold ContarChannelIE._real_extract. cbn zeta.
    rewrite (bindM_ok _ _ s s0 (length (heap s))) by done.
    rewrite (bindM_ok _ _ s0 s1 channel_info Hcall1).
    rewrite (bindM_ok _ _ s1 s2 (length (heap s1))) by done.
    rewrite (bindM_ok _ _ s2 s3 (JArr videos) Hcall2).
    rewrite bindM_liftR. cbn [py_iter].
    rewrite bindM_liftR, refs_loop_collects by done.
    rewrite !bindM_liftR, !(py_get_obj channel_info) by done.
    reflexivity.
  - eexists _, _. unfold s3. cbn [record log]. rewrite inject_auth_log.
    unfold s2 at 1. cbn [log]. unfold s1 at 1. cbn [record log].
    rewrite inject_auth_log. unfold s0 at 1. cbn [log].
    rewrite <- app_assoc. split; [reflexivity|]. by cbn.
Qed.

(** X24.  In channel mode a failure of the second fetch is the outcome of
    the whole resolution: the error of [_download_json] is raised as it
    is and nothing of the channel info already fetched is returned. *)
Theorem channel_extract_list_failure (url : string) (s : state) (t : string)
    (envelope1 channel_info : json) (e : pyerr) :
  _auth_token s = Some (JStr t) ->
  (forall r, req_url r = _API_BASE +:+ "channel/info/" +:+ _match_id url ->
             _download_json r = Ok envelope1) ->
  _handle_errors envelope1 = Ok tt ->
  py_getitem envelope1 "data" = Ok channel_info ->
  (forall r, req_url r = _API_BASE +:+ "channel/series/" +:+ _match_id url ->
             _download_json r = Raise e) ->
  fst (ContarChannelIE._real_extract url s) = Raise e
  /\ length (log (snd (ContarChannelIE._real_extract url s)))
     = (length (log s) + 2)%nat.
Proof.
  intros Htok Hserver1 Hok1 Hdata1 Hserver2.
  set (s0 := {| _auth_token := _auth_token s;
                heap := heap s ++ [[("Referer", JStr url)]];
                log := log s |}).
  pose proof (call_api_ok ("channel/info/" +:+ _match_id url)
                (JStr (_match_id url)) (Some (length (heap s)))
                (Some "Downloading Channel Info JSON metadata")
                s0 t envelope1 channel_info Htok Hserver1 Hok1 Hdata1)
    as Hcall1.
  cbn zeta in Hcall1.
  match type of Hcall1 with _ = (_, ?st) => set (s1 := st) in * end.
  assert (Htok1 : _auth_token s1 = Some (JStr t)).
  { unfold s1. cbn [record _auth_token]. by rewrite inject_auth_same_token. }
  set (s2 := {| _auth_token := _auth_token s1;
                heap := heap s1 ++ [[("Referer", JStr url)]];
                log := log s1 |}).
  pose proof (call_api_exec ("channel/series/" +:+ _match_id url)
                (JStr (_match_id url)) (Some (length (heap s1)))
                (Some "Downloading Channel List JSON metadata")
                s2 (JStr t) Htok1 (or_intror eq_refl)) as Hcall2.
  cbn zeta in Hcall2. rewrite Hserver2 in Hcall2 by done.
  cbn [bindR] in Hcall2.
  unfold ContarChannelIE._real_extract. cbn zeta.
  rewrite (bindM_ok _ _ s s0 (length (heap s))) by done.
  rewrite (bindM_ok _ _ s0 s1 channel_info Hcall1).
  rewrite (bindM_ok _ _ s1 s2 (length (heap s1))) by done.
  rewrite (bindM_raise _ _ _ _ _ Hcall2).
  split; [done|]. cbn [snd record log]. rewrite inject_auth_log.
  unfold s2 at 1. cbn [log]. unfold s1 at 1. cbn [record log].
  rewrite inject_auth_log. unfold s0 at 1. cbn [log].
  rewrite !length_app. cbn. lia.
Qed.

(** X25.  Genre mode fetches one section and returns a playlist with one
    lazy reference per SERIE entry of the section's [videos] listing, in
    order, titled by the section's [title] and with a null description.
    A section without the [videos] key raises [KeyError]. *)
Theorem browse_extract_refs (url : string) (s : state) (t : string)
    (envelope : json) (d : dict) :
  _auth_token s = Some (JStr t) ->
  (forall r, req_url r = _API_BASE +:+ "full/section/" +:+ _match_id url ->
             _download_json r = Ok envelope) ->
  _handle_errors envelope = Ok tt ->
  py_getitem envelope "data" = Ok (JObj d) ->
  (forall v videos,
     dict_get d "videos" = Some v ->
     listing v = Some videos ->
     forallb is_obj videos = true ->
     fst (ContarBrowseIE._real_extract url s)
     = Ok (playlist_of_refs
             (map serie_ref (List.filter is_serie_entry videos))
             (JStr (_match_id url)) (field (JObj d) "title") JNull))
  /\ (dict_get d "videos" = None ->
      fst (ContarBrowseIE._real_extract url s) = Raise (KeyError "videos")).
Proof.
  intros Htok Hserver Hok Hdata.
  set (s0 := {| _auth_token := _auth_token s;
                heap := heap s ++ [[("Referer", JStr url)]];
                log := log s |}).
  pose proof (call_api_ok ("full/section/" +:+ _match_id url)
                (JStr (_match_id url)) (Some (length (heap s))) None
                s0 t envelope (JObj d) Htok Hserver Hok Hdata) as Hcall.
  cbn zeta in Hcall.
  match type of Hcall with _ = (_, ?st) => set (s1 := st) in * end.
  unfold ContarBrowseIE._real_extract. cbn zeta.
  rewrite (bindM_ok _ _ s s0 (length (heap s))) by done.
  rewrite (bindM_ok _ _ s0 s1 (JObj d) Hcall).
  rewrite bindM_liftR. cbn [py_getitem]. split.
  - intros v videos Hv Hlist Hall. rewrite Hv.
    rewrite bindM_liftR, (listing_get v videos Hlist).
    rewrite bindM_liftR. cbn [py_iter].
    rewrite bindM_liftR, refs_loop_collects by done.
    rewrite bindM_liftR. by cbn.
  - by intros ->.
Qed.

End MoreExtractors.

Section MoreSeries.
Context `{IE : InfoExtractor}.

(** ** Series mode, continued *)

Lemma get_video_info_no_subtitles (video video_id : json) (base : dict)
    (s : state) :
  lacks_subtitles video = true ->
  _get_video_info video video_id base s = (Raise (KeyError "subtitles"), s).
Proof.
  intros Hbad. destruct video as [| | | | |d]; try done.
  cbn [lacks_subtitles] in Hbad.
  destruct (dict_get d "subtitles") eqn:Hsubs; [done|].
  assert (Hformats : exists formats,
             _get_formats (default (JArr []) (dict_get d "streams"))
                          (default JNull (dict_get d "id")) = Ok formats).
  { destruct (dict_get d "streams") as [[| | | |streams|]|]; try done.
    - by apply get_formats_total.
    - by exists []. }
  destruct Hformats as [formats Hformats].
  unfold _get_video_info, bindM, liftR. cbn [py_get py_getitem].
  by rewrite Hformats, Hsubs.
Qed.

Lemma episodes_loop_aborts (serie_id : json) (base : dict)
    (serie_info name : json) (before after : list json) (bad : json)
    (entries : list video_info) (s : state) :
  forallb is_episode before = true ->
  lacks_subtitles bad = true ->
  dict_get base "serie_info" = Some serie_info ->
  is_obj serie_info = true ->
  truthy serie_info = true ->
  dict_get base "season_number" = Some name ->
  truthy name = true ->
  ContarSerieIE.episodes_loop serie_id base (before ++ bad :: after) entries s
  = (Raise (KeyError "subtitles"), s).
Proof.
  intros Hbefore Hbad Hsi Hobj Htrue Hname Hntrue.
  destruct (episodes_loop_known serie_id base serie_info name before
              entries s Hbefore Hsi Hobj Htrue Hname Hntrue)
    as (built & Hloop & _).
  unfold ContarSerieIE.episodes_loop in *.
  rewrite foldM_app, (bindM_ok _ _ _ _ _ Hloop). cbn [foldM].
  apply bindM_raise, bindM_raise. by apply get_video_info_no_subtitles.
Qed.

(** The outer loop never drops the series from the context it carries. *)
Lemma seasons_loop_keeps_serie (serie_id serie_info : json)
    (seasons : list json) (base base' : dict)
    (entries entries' : list video_info) (s s' : state) :
  ContarSerieIE.seasons_loop serie_id seasons base entries s
  = (Ok (base', entries'), s') ->
  dict_get base "serie_info" = Some serie_info ->
  dict_get base' "serie_info" = Some serie_info.
Proof.
  unfold ContarSerieIE.seasons_loop.
  revert base entries s. induction seasons as [|season seasons IH];
    intros base entries s Hrun Hsi.
  - cbn in Hrun. by injection Hrun as <- _ _.
  - cbn [foldM] in Hrun. unfold bindM at 1 in Hrun.
    match type of Hrun with
    | (let (_, _) := ?c in _) = _ =>
        destruct c as [[[base1 entries1]|e] s1] eqn:Hbody; [|done]
    end.
    apply (IH base1 entries1 s1 Hrun).
    unfold bindM, liftR, retM in Hbody.
    destruct (py_get season "name" JNull) as [name|]; [|done].
    destruct (py_getitem season "videos") as [v|]; [|done].
    destruct (py_get v "data" (JArr [])) as [vd|]; [|done].
    destruct (py_iter vd) as [episodes|]; [|done].
    destruct (ContarSerieIE.episodes_loop _ _ _ _ _) as [[built|] s2];
      [|done].
    injection Hbody as <- _ _. by rewrite dict_get_set_ne.
Qed.

(** X26.  Series mode returns no partial playlist: when an episode
    without the [subtitles] key is reached, after any number of well
    formed seasons and episodes, the whole resolution raises [KeyError],
    whatever comes after that episode. *)
Theorem serie_extract_aborts (url : string) (s : state) (t : string)
    (envelope serie_info season bad : json)
    (before after eps_before eps_after : list json) :
  _auth_token s = Some (JStr t) ->
  (forall r, req_url r = _API_BASE +:+ "serie/" +:+ _match_id url ->
             _download_json r = Ok envelope) ->
  _handle_errors envelope = Ok tt ->
  py_getitem envelope "data" = Ok serie_info ->
  serie_seasons serie_info = Some (before ++ season :: after) ->
  forallb is_full_season before = true ->
  forallb (fun season => truthy (field season "name")) before = true ->
  truthy (field season "name") = true ->
  season_episodes season = Some (eps_before ++ bad :: eps_after) ->
  forallb is_episode eps_before = true ->
  lacks_subtitles bad = true ->
  fst (ContarSerieIE._real_extract url s) = Raise (KeyError "subtitles").
Proof.
  intros Htok Hserver Hok Hdata Hseasons Hfull Hnames Hname Heps Hbefore
         Hbad.
  destruct serie_info as [| | | | |d]; try done.
  cbn [serie_seasons] in Hseasons.
  destruct (dict_get d "seasons") as [sobj|] eqn:Hsobj; [|done].
  cbn [mbind option_bind] in Hseasons.
  assert (Htrue : truthy (JObj d) = true) by (by destruct d).
  set (s0 := {| _auth_token := _auth_token s;
                heap := heap s ++ [[("Referer", JStr url)]];
                log := log s |}).
  pose proof (get_serie_info_ok (_match_id url) (Some (length (heap s))) s0
                t envelope (JObj d) Htok Hserver Hok Hdata) as Hcall.
  cbn zeta in Hcall.
  match type of Hcall with _ = (_, ?st) => set (s1 := st) in * end.
  set (base0 := dict_set [] "serie_info" (JObj d)).
  destruct (seasons_loop_known (JStr (_match_id url)) (JObj d) before
              base0 [] s1 Hfull Hnames eq_refl eq_refl Htrue)
    as (base1 & built & Hloop & _).
  pose proof (seasons_loop_keeps_serie _ (JObj d) _ _ _ _ _ _ _ Hloop eq_refl)
    as Hsi1.
  destruct season as [| | | | |sd]; try done.
  cbn [season_episodes] in Heps.
  destruct (dict_get sd "videos") as [v|] eqn:Hv; [|done].
  cbn [mbind option_bind] in Heps.
  set (name := field (JObj sd) "name") in *.
  set (base2 := dict_set base1 "season_number" name).
  assert (Hsi2 : dict_get base2 "serie_info" = Some (JObj d)).
  { unfold base2. by rewrite dict_get_set_ne. }
  assert (Hname2 : dict_get base2 "season_number" = Some name).
  { apply dict_get_set_eq. }
  pose proof (episodes_loop_aborts (JStr (_match_id url)) base2 (JObj d)
                name eps_before eps_after bad ([] ++ built) s1 Hbefore Hbad
                Hsi2 eq_refl Htrue Hname2 Hname) as Habort.
  unfold ContarSerieIE._real_extract. cbn zeta.
  rewrite (bindM_ok _ _ s s0 (length (heap s))) by done.
  rewrite (bindM_ok _ _ s0 s1 (JObj d) Hcall).
  rewrite bindM_liftR. cbn [py_getitem]. rewrite Hsobj.
  rewrite bindM_liftR, (listing_get sobj _ Hseasons).
  rewrite bindM_liftR. cbn [py_iter].
  erewrite bindM_raise; [done|].
  unfold ContarSerieIE.seasons_loop in *.
  rewrite foldM_app, (bindM_ok _ _ _ _ _ Hloop). cbn [foldM].
  apply bindM_raise.
  rewrite bindM_liftR. cbn [py_get].
  rewrite bindM_liftR. cbn [py_getitem]. rewrite Hv.
  rewrite bindM_liftR, (listing_get v _ Heps).
  rewrite bindM_liftR. cbn [py_iter].
  apply bindM_raise. exact Habort.
Qed.

End MoreSeries.

(** * Examples, continued *)

Ltac answer :=
  let r := fresh "r" in
  let Hr := fresh "Hr" in
  intros r Hr;
  cbv [_download_json watch_ie channel_ie browse_ie login_ie down_ie
       failing_ie serie_ie anonymous_ie channel_info_only_ie no_data_ie
       demo_ie serve serve_two serve_serie];
  rewrite Hr; reflexivity.

Lemma handle_errors_string_example :
  _handle_errors (IE := failing_ie) failing_envelope
  = Raise (ExtractorError "Contar said: Not found" true).
Proof.
  apply (handle_errors_string (IE := failing_ie)
           (fields_of failing_envelope)
           [("message", JStr "Not found")] "Not found");
    [reflexivity | reflexivity | discriminate].
Defined.

Lemma handle_errors_malformed_example :
  _handle_errors (IE := failing_ie) (JObj [("error", JNull)])
  = Raise (AttributeError "get")
  /\ _handle_errors (IE := failing_ie) (JArr [])
     = Raise (AttributeError "get").
Proof.
  split; apply (handle_errors_malformed (IE := failing_ie)).
  - right. exists [("error", JNull)], JNull. repeat split.
  - left. reflexivity.
Defined.

Lemma handle_errors_mapping_non_string_example :
  _handle_errors (IE := failing_ie) (JObj mixed_errors) = Raise TypeError.
Proof.
  apply (handle_errors_mapping_non_string (IE := failing_ie) mixed_errors
           [("message", JObj [("field1", JStr "bad"); ("code", JNum 42)])]
           [("field1", JStr "bad"); ("code", JNum 42)]);
    reflexivity.
Defined.

Lemma get_season_number_stops_example :
  _get_season_number (serie_of (two_seasons ++ [JNull])) (JStr "e3")
  = Ok (JNum 2).
Proof.
  apply (get_season_number_stops_at_match
           (fields_of (serie_of (two_seasons ++ [JNull])))
           (JObj [("data", JArr (two_seasons ++ [JNull]))]) (JStr "e3")
           (season_info 2 [episode_raw "e3"])
           [season_info 1 [episode_raw "e1"; episode_raw "e2"]] [JNull]);
    reflexivity.
Defined.

Lemma get_season_number_missing_key_example :
  _get_season_number (JObj [("id", JStr "s1")]) (JStr "e1")
  = Raise (KeyError "seasons")
  /\ _get_season_number
       (serie_of [season_info 1 [episode_raw "e1"];
                  JObj [("name", JNum 2)]])
       (JStr "e3")
     = Raise (KeyError "videos").
Proof.
  split.
  - apply (proj1 (get_season_number_missing_key [("id", JStr "s1")]
                    (JStr "e1"))).
    reflexivity.
  - apply (proj2 (get_season_number_missing_key
                    (fields_of (serie_of [season_info 1 [episode_raw "e1"];
                                          JObj [("name", JNum 2)]]))
                    (JStr "e3"))
                 (JObj [("data", JArr [season_info 1 [episode_raw "e1"];
                                       JObj [("name", JNum 2)]])])
                 [season_info 1 [episode_raw "e1"]]
                 [("name", JNum 2)] []);
      reflexivity.
Defined.

Lemma get_season_number_enclosing_example :
  _get_season_number (serie_of two_seasons) (field (episode_raw "e3") "id")
  = Ok (JNum 2).
Proof.
  apply (get_season_number_enclosing (serie_of two_seasons) two_seasons
           (episode_raw "e3") (JNum 2)).
  - reflexivity.
  - reflexivity.
  - repeat constructor.
  - repeat (apply NoDup_cons; split;
            [intros H;
             repeat (apply elem_of_cons in H as [H|H]; [discriminate H|]);
             by apply elem_of_nil in H|]).
    apply NoDup_nil. done.
  - simpl. auto.
Defined.

Lemma get_subtitles_bad_lang_example :
  _get_subtitles
    (JArr [JObj [("lang", JStr "ES"); ("url", JStr "https://cont.ar/a.srt")];
           JObj [("url", JStr "https://cont.ar/b.srt")]])
    JNull
  = Raise (AttributeError "lower").
Proof.
  apply (get_subtitles_bad_lang
           [JObj [("lang", JStr "ES"); ("url", JStr "https://cont.ar/a.srt")]]
           [] (JObj [("url", JStr "https://cont.ar/b.srt")]) JNull);
    reflexivity.
Defined.

Lemma get_formats_collects_example :
  _get_formats (IE := failing_ie) (JArr mixed_streams) (JStr "e1")
  = Ok [JObj [("format_id", JStr "hls");
              ("url", JStr "https://cont.ar/a.m3u8")];
        JObj [("format_id", JStr "dash");
              ("url", JStr "https://cont.ar/a.mpd")]].
Proof.
  apply (get_formats_collects (IE := failing_ie) mixed_streams (JStr "e1")).
  reflexivity.
Defined.

Lemma call_api_token_errors_example :
  _call_api (IE := failing_ie) "videos/e1" (JStr "e1") None None uninitialised
  = (Raise (AttributeError "_auth_token"), uninitialised)
  /\ _call_api (IE := failing_ie) "videos/e1" (JStr "e1") None None
               (logged_in (JNum 7) [])
     = (Raise TypeError, logged_in (JNum 7) []).
Proof.
  split.
  - apply (proj1 (call_api_token_errors (IE := failing_ie) "videos/e1"
                    (JStr "e1") None None uninitialised)).
    reflexivity.
  - apply (proj2 (call_api_token_errors (IE := failing_ie) "videos/e1"
                    (JStr "e1") None None (logged_in (JNum 7) []))
                 (JNum 7));
      reflexivity.
Defined.

Lemma call_api_download_failure_example :
  exists s',
    _call_api (IE := down_ie) "videos/e1" (JStr "e1") (Some 2%nat) None
              (logged_in (JStr "t0ken") [referer_headers])
    = (Raise (ExtractorError "Unable to download JSON metadata" false), s')
    /\ heap s' !! 2%nat
       = Some [("Referer", JStr "https://www.cont.ar/watch/e1");
               ("Authorization", JStr "Bearer t0ken")].
Proof.
  destruct (call_api_download_failure (IE := down_ie) "videos/e1" (JStr "e1")
              2%nat None (logged_in (JStr "t0ken") [referer_headers])
              "t0ken" referer_headers
              (ExtractorError "Unable to download JSON metadata" false)
              eq_refl ltac:(discriminate) eq_refl
              (fun _ _ => eq_refl))
    as (s' & Hrun & Hheap & _).
  exists s'. split; [exact Hrun | exact Hheap].
Defined.

Lemma call_api_missing_data_example :
  fst (_call_api (IE := no_data_ie) "videos/e1" (JStr "e1") None None
                 (logged_in (JStr "t0ken") []))
  = Raise (KeyError "data").
Proof.
  apply (proj1 (call_api_missing_data (IE := no_data_ie) "videos/e1"
                  (JStr "e1") None None (logged_in (JStr "t0ken") [])
                  "t0ken" [("status", JStr "ok")] eq_refl ltac:(answer)
                  eq_refl)).
  reflexivity.
Defined.

Lemma call_api_twice_example :
  exists req1 req2,
    log (snd (_call_api (IE := failing_ie) "videos/e2" (JStr "e2")
                (Some 2%nat) None
                (snd (_call_api (IE := failing_ie) "videos/e1" (JStr "e1")
                        (Some 2%nat) None
                        (logged_in (JStr "t0ken") [referer_headers])))))
    = [req1; req2]
    /\ req_headers req2 = req_headers req1.
Proof.
  destruct (proj2 (call_api_twice (IE := failing_ie) "videos/e1" "videos/e2"
                     (JStr "e1") (JStr "e2") 2%nat None None
                     (logged_in (JStr "t0ken") [referer_headers]) "t0ken"
                     referer_headers eq_refl ltac:(discriminate) eq_refl))
    as (req1 & req2 & Hlog & _ & Hsame).
  exists req1, req2. split; [exact Hlog | exact Hsame].
Defined.

Lemma real_initialize_success_example :
  fst (_real_initialize (IE := login_ie (JObj [("token", JStr "t0ken")]))
                        initial_state)
  = Ok tt
  /\ _auth_token
       (snd (_real_initialize (IE := login_ie (JObj [("token", JStr "t0ken")]))
                              initial_state))
     = Some (JStr "t0ken").
Proof.
  destruct (real_initialize_success
              (IE := login_ie (JObj [("token", JStr "t0ken")]))
              initial_state "viewer@example.org" (Some "secret")
              (JObj [("token", JStr "t0ken")]) (JStr "t0ken")
              eq_refl ltac:(answer) eq_refl eq_refl)
    as (Hok & Htoken & _).
  split; [exact Hok | exact Htoken].
Defined.

Lemma real_initialize_rejected_example :
  (exists e,
     fst (_real_initialize (IE := login_ie failing_envelope) initial_state)
     = Raise e
     /\ _auth_token
          (snd (_real_initialize (IE := login_ie failing_envelope)
                                 initial_state))
        = None)
  /\ fst (_real_initialize (IE := login_ie (JObj [])) initial_state)
     = Raise (KeyError "token").
Proof.
  split.
  - apply (proj1 (real_initialize_rejected (IE := login_ie failing_envelope)
                    initial_state "viewer@example.org" (Some "secret")
                    failing_envelope eq_refl ltac:(answer))).
    reflexivity.
  - apply (proj2 (real_initialize_rejected (IE := login_ie (JObj []))
                    initial_state "viewer@example.org" (Some "secret")
                    (JObj []) eq_refl ltac:(answer))
                 [] eq_refl eq_refl eq_refl).
Defined.

Lemma initialize_then_call_example :
  exists login req,
    log (snd (_call_api (IE := login_ie (JObj [("token", JStr "t0ken")]))
                "videos/e1" (JStr "e1") (Some 0%nat) None
                (snd (_real_initialize
                        (IE := login_ie (JObj [("token", JStr "t0ken")]))
                        initial_state))))
    = [login; req]
    /\ dict_get (req_headers req) "Authorization"
       = Some (JStr "Bearer t0ken").
Proof.
  destruct (initialize_then_call
              (IE := login_ie (JObj [("token", JStr "t0ken")]))
              initial_state "viewer@example.org" (Some "secret")
              (JObj [("token", JStr "t0ken")]) "t0ken" "videos/e1"
              (JStr "e1") 0%nat None []
              eq_refl ltac:(answer) eq_refl eq_refl ltac:(discriminate)
              eq_refl)
    as (login & req & Hlog & _ & _ & Hauth).
  exists login, req. split; [exact Hlog | exact Hauth].
Defined.

Lemma get_serie_info_default_example :
  heap (snd (_get_serie_info (IE := watch_ie) (JStr "s1") None
                             (logged_in (JStr "t0ken") [])))
    !! _get_serie_info_headers
  = Some [("Authorization", JStr "Bearer t0ken")]
  /\ heap (snd (_get_serie_info (IE := watch_ie) (JStr "s1") None
                                (logged_in (JStr "t0ken") [])))
       !! _call_api_headers
     = Some []
  /\ _get_serie_info (IE := watch_ie) JNull None (logged_in (JStr "t0ken") [])
     = (Raise TypeError, logged_in (JStr "t0ken") []).
Proof.
  pose proof (get_serie_info_default_mapping (IE := watch_ie)
                (logged_in (JStr "t0ken") []) "t0ken" []
                eq_refl ltac:(discriminate) eq_refl) as [Hwrite Hbad].
  destruct (Hwrite "s1") as (Hown & Hother & _).
  split; [exact Hown|]. split; [exact Hother|].
  apply Hbad. reflexivity.
Defined.

(** The specification's example: episode e3 resolved on its own is in
    season 2. *)
Lemma get_video_info_standalone_example :
  exists info s',
    _get_video_info (IE := watch_ie) episode_e3 (JStr "e3") []
                    (logged_in (JStr "t0ken") [])
    = (Ok info, s')
    /\ vi_season_number info = Some 2
    /\ vi_release_year info = Some 2018
    /\ vi_episode_number info = Some 1.
Proof.
  destruct (get_video_info_standalone (IE := watch_ie) (fields_of episode_e3)
              (JStr "e3") (logged_in (JStr "t0ken") []) "t0ken" "s1"
              (JObj [("data", serie_of two_seasons)]) (serie_of two_seasons)
              eq_refl eq_refl eq_refl ltac:(answer) eq_refl eq_refl eq_refl)
    as (info & s' & Hrun & Hseason & Hyear & Hepisode & _).
  exists info, s'. split; [exact Hrun|].
  split; [exact Hseason|]. split; [exact Hyear | exact Hepisode].
Defined.

Lemma get_video_info_no_serie_example :
  _get_video_info (IE := watch_ie) (JObj no_streams) (JStr "e1") []
                  (logged_in (JStr "t0ken") [])
  = (Raise TypeError, logged_in (JStr "t0ken") []).
Proof.
  apply (get_video_info_no_serie (IE := watch_ie) no_streams (JStr "e1") []
           (logged_in (JStr "t0ken") []));
    reflexivity.
Defined.

Lemma get_video_info_null_streams_example :
  _get_video_info (IE := watch_ie)
                  (JObj [("id", JStr "e1"); ("streams", JNull);
                         ("subtitles", JObj [])])
                  (JStr "e1") known_base (logged_in (JStr "t0ken") [])
  = (Raise TypeError, logged_in (JStr "t0ken") []).
Proof.
  apply (get_video_info_null_streams (IE := watch_ie)
           [("id", JStr "e1"); ("streams", JNull); ("subtitles", JObj [])]
           (JStr "e1") known_base (logged_in (JStr "t0ken") []) JNull);
    reflexivity.
Defined.

Lemma episode_extract_example :
  exists info s',
    ContarIE._real_extract (IE := watch_ie) watch_url
                           (logged_in (JStr "t0ken") [])
    = (Ok info, s')
    /\ vi_season_number info = Some 2
    /\ map req_headers (log s')
       = [[("Referer", JStr watch_url);
           ("Authorization", JStr "Bearer t0ken")];
          [("Authorization", JStr "Bearer t0ken")]].
Proof.
  destruct (episode_extract_two_requests (IE := watch_ie) watch_url
              (logged_in (JStr "t0ken") []) "t0ken" []
              (JObj [("data", episode_e3)])
              (JObj [("data", serie_of two_seasons)]) (serie_of two_seasons)
              (fields_of episode_e3) "s1"
              eq_refl ltac:(discriminate) eq_refl ltac:(answer) eq_refl
              eq_refl eq_refl eq_refl ltac:(answer) eq_refl eq_refl eq_refl)
    as (info & s' & Hrun & _ & Hseason & req1 & req2 & Hlog & _ & Hh1 & _
        & Hh2).
  exists info, s'. split; [exact Hrun|]. split; [exact Hseason|].
  rewrite Hlog. cbn [map app log logged_in]. by rewrite Hh1, Hh2.
Defined.

(** The specification's example: one SERIE entry and one of another type
    give one lazy reference. *)
Lemma channel_extract_example :
  exists s',
    ContarChannelIE._real_extract (IE := channel_ie) channel_url
                                  (logged_in (JStr "t0ken") [])
    = (Ok {| rp_entries :=
               [{| ref_url := "www.cont.ar/serie/s1";
                   ref_id := JStr "s1";
                   ref_title := JStr "Vidas de Radio" |}];
             rp_id := JStr "242";
             rp_title := JStr "PAKAPAKA";
             rp_description := JStr "Infantil" |},
       s').
Proof.
  destruct (channel_extract_refs (IE := channel_ie) channel_url
              (logged_in (JStr "t0ken") []) "t0ken"
              (JObj [("data", JObj [("name", JStr "PAKAPAKA");
                                    ("description", JStr "Infantil")])])
              (JObj [("data", JArr channel_listing)])
              (JObj [("name", JStr "PAKAPAKA");
                     ("description", JStr "Infantil")])
              channel_listing
              eq_refl ltac:(answer) eq_refl eq_refl eq_refl ltac:(answer)
              eq_refl eq_refl eq_refl)
    as (s' & Hrun & _).
  exists s'. exact Hrun.
Defined.

Lemma channel_extract_list_failure_example :
  fst (ContarChannelIE._real_extract (IE := channel_info_only_ie) channel_url
                                     (logged_in (JStr "t0ken") []))
  = Raise (ExtractorError "HTTP Error 404: Not Found" false).
Proof.
  apply (proj1 (channel_extract_list_failure (IE := channel_info_only_ie)
                  channel_url (logged_in (JStr "t0ken") []) "t0ken"
                  (JObj [("data", JObj [("name", JStr "PAKAPAKA")])])
                  (JObj [("name", JStr "PAKAPAKA")])
                  (ExtractorError "HTTP Error 404: Not Found" false)
                  eq_refl ltac:(answer) eq_refl eq_refl ltac:(answer))).
Defined.

Lemma browse_extract_example :
  fst (ContarBrowseIE._real_extract (IE := browse_ie) browse_url
                                    (logged_in (JStr "t0ken") []))
  = Ok {| rp_entries :=
            [{| ref_url := "www.cont.ar/serie/s1";
                ref_id := JStr "s1";
                ref_title := JStr "Vidas de Radio" |}];
          rp_id := JStr "46";
          rp_title := JStr "Infantil";
          rp_description := JNull |}.
Proof.
  apply (proj1 (browse_extract_refs (IE := browse_ie) browse_url
                  (logged_in (JStr "t0ken") []) "t0ken"
                  (JObj [("data",
                          JObj [("title", JStr "Infantil");
                                ("videos",
                                 JObj [("data", JArr channel_listing)])])])
                  [("title", JStr "Infantil");
                   ("videos", JObj [("data", JArr channel_listing)])]
                  eq_refl ltac:(answer) eq_refl eq_refl)
               (JObj [("data", JArr channel_listing)]) channel_listing);
    reflexivity.
Defined.

Lemma serie_extract_aborts_example :
  fst (ContarSerieIE._real_extract (IE := serie_ie broken_seasons) serie_url
                                   (logged_in (JStr "t0ken") []))
  = Raise (KeyError "subtitles").
Proof.
  apply (serie_extract_aborts (IE := serie_ie broken_seasons) serie_url
           (logged_in (JStr "t0ken") []) "t0ken"
           (JObj [("data", serie_of broken_seasons)])
           (serie_of broken_seasons)
           (season_info 2 [episode_raw "e2"; JObj [("id", JStr "e3")];
                           episode_raw "e4"])
           (JObj [("id", JStr "e3")])
           [season_info 1 [episode_raw "e1"]] [JNull]
           [episode_raw "e2"] [episode_raw "e4"]);
    try reflexivity.
  answer.
Defined.
